(** * csgolog: parsing of CS:GO server log lines

    A shallow embedding of [csgolog.go] (package [csgolog]) and the
    properties of its parsing pipeline: the timestamp prefix, the table of
    recognizers, the field extractors and the fallbacks.

    Go strings are byte sequences: they are modelled as lists of [ascii]
    (8-bit characters).  Go's [int] is taken to be 64 bits wide. *)

From Stdlib Require Import String Ascii.
From Stdlib Require Import List ZArith Lia Bool Permutation Arith.
Import ListNotations.
Open Scope string_scope.
Open Scope nat_scope.
Open Scope list_scope.

Set Implicit Arguments.

(** ** Byte strings *)

Definition bytes := list ascii.

Definition of_string (s : string) : bytes := list_ascii_of_string s.
Coercion of_string : string >-> bytes.

(** Concatenation of byte strings with literals on either side. *)
Notation "a +++ b" := (@app ascii (a : bytes) (b : bytes))
  (at level 60, right associativity, only parsing).

(** The double quote character (code 34) and a quoted text. *)
Definition dq : bytes := ["034"%char].
Definition quoted (s : bytes) : bytes := dq ++ s ++ dq.

(** The newline character (code 10). *)
Definition nl : ascii := "010"%char.

Fixpoint bytes_eqb (a b : bytes) : bool :=
  match a, b with
  | [], [] => true
  | x :: a', y :: b' => Ascii.eqb x y && bytes_eqb a' b'
  | _, _ => false
  end.

(** [p] stripped from the front of [s], when [s] starts with [p]. *)
Fixpoint strip (p s : bytes) : option bytes :=
  match p with
  | [] => Some s
  | x :: p' =>
      match s with
      | y :: s' => if Ascii.eqb x y then strip p' s' else None
      | [] => None
      end
  end.

(** Package [strings] of the Go library. *)
Module strings.

Definition HasPrefix (s p : bytes) : bool :=
  match strip p s with Some _ => true | None => false end.

(** [sub] occurs somewhere in [s]. *)
Fixpoint Contains (s sub : bytes) : bool :=
  HasPrefix s sub ||
  match s with
  | [] => false
  | _ :: t => Contains t sub
  end.

End strings.

(** ** Character classes of the patterns

    The regexp package works on UTF-8, but every pattern of this program
    starts with an ASCII literal and every [.] and class repetition is
    followed by an ASCII literal or by the end of the pattern; an ASCII byte
    never occurs inside a multi-byte sequence, so matching byte by byte
    gives the same matches and the same captures. *)

Definition code (c : ascii) : nat := nat_of_ascii c.

Definition between (lo hi : nat) (c : ascii) : bool :=
  (lo <=? code c) && (code c <=? hi).

(** [\d] *)
Definition digit (c : ascii) : bool := between 48 57 c.

(** [\w]: digits, letters and the underscore *)
Definition word (c : ascii) : bool :=
  digit c || between 65 90 c || between 97 122 c || (code c =? 95).

(** [.]: every character but the newline *)
Definition dot (c : ascii) : bool := negb (Ascii.eqb c nl).

Definition or_class (p q : ascii -> bool) (c : ascii) : bool := p c || q c.

(** ** Regular expressions with capture groups

    The fragment of the regexp syntax that the patterns of the program use:
    literals, character classes, concatenation, alternation (the left
    branch is preferred), greedy [?], greedy repetition of a class, and
    numbered capture groups. *)

Inductive regex : Type :=
| Lit (l : bytes)
| Class (p : ascii -> bool)
| Cat (r1 r2 : regex)
| Alt (r1 r2 : regex)
| Quest (r : regex)
| Star (p : ascii -> bool)
| Group (n : nat) (r : regex).

(** [p+] *)
Definition Plus (p : ascii -> bool) : regex := Cat (Class p) (Star p).

(** [r{n}] *)
Fixpoint times (n : nat) (r : regex) : regex :=
  match n with
  | 0 => Lit []
  | 1 => r
  | S n' => Cat r (times n' r)
  end.

(** A sequence [r1 r2 ... rn]. *)
Fixpoint seq (rs : list regex) : regex :=
  match rs with
  | [] => Lit []
  | [r] => r
  | r :: rs' => Cat r (seq rs')
  end.

(** [a|b|...|z], tried from left to right. *)
Fixpoint alts (ls : list bytes) : regex :=
  match ls with
  | [] => Lit []
  | [l] => Lit l
  | l :: ls' => Alt (Lit l) (alts ls')
  end.

(** Number of capture groups of a pattern ([Regexp.NumSubexp]). *)
Fixpoint ngroups (r : regex) : nat :=
  match r with
  | Lit _ | Class _ | Star _ => 0
  | Cat r1 r2 | Alt r1 r2 => ngroups r1 + ngroups r2
  | Quest r1 => ngroups r1
  | Group _ r1 => S (ngroups r1)
  end.

(** Groups are numbered by their opening parenthesis, from 1: [numbered r n]
    is the number of the next group after [r] when the groups of [r] are
    numbered in that way starting at [n]. *)
Fixpoint numbered (r : regex) (n : nat) : option nat :=
  match r with
  | Lit _ | Class _ | Star _ => Some n
  | Cat r1 r2 | Alt r1 r2 =>
      match numbered r1 n with
      | Some n1 => numbered r2 n1
      | None => None
      end
  | Quest r1 => numbered r1 n
  | Group i r1 => if i =? n then numbered r1 (S n) else None
  end.

(** *** Matching

    The captures are the texts of the groups, group 0 being the whole
    match; a group that took no part in the match has the empty text.
    [run r s c k] matches [r] at the start of [s] and hands the text it
    consumed, the rest of the input and the captures to [k]; when [k]
    fails the next choice is tried, in the order of preference of the
    regexp package (leftmost-first: a greedy operator first tries to take
    more, an alternation tries its left branch first). *)

Definition caps := list bytes.

Fixpoint set_cap (n : nat) (w : bytes) (c : caps) : caps :=
  match c, n with
  | [], _ => []
  | _ :: t, 0 => w :: t
  | h :: t, S n' => h :: set_cap n' w t
  end.

Definition cont := bytes -> bytes -> caps -> option caps.

Fixpoint star_run (p : ascii -> bool) (s : bytes) (c : caps) (k : cont)
  : option caps :=
  match s with
  | x :: s' =>
      if p x then
        match star_run p s' c (fun w rest c' => k (x :: w) rest c') with
        | Some res => Some res
        | None => k [] s c
        end
      else k [] s c
  | [] => k [] [] c
  end.

Fixpoint run (r : regex) (s : bytes) (c : caps) (k : cont) : option caps :=
  match r with
  | Lit l =>
      match strip l s with
      | Some rest => k l rest c
      | None => None
      end
  | Class p =>
      match s with
      | x :: rest => if p x then k [x] rest c else None
      | [] => None
      end
  | Cat r1 r2 =>
      run r1 s c (fun w1 s1 c1 =>
        run r2 s1 c1 (fun w2 s2 c2 => k (w1 ++ w2) s2 c2))
  | Alt r1 r2 =>
      match run r1 s c k with
      | Some res => Some res
      | None => run r2 s c k
      end
  | Quest r1 =>
      match run r1 s c k with
      | Some res => Some res
      | None => k [] s c
      end
  | Star p => star_run p s c k
  | Group n r1 => run r1 s c (fun w s1 c1 => k w s1 (set_cap n w c1))
  end.

(** No group has matched yet. *)
Definition no_caps (r : regex) : caps := repeat [] (S (ngroups r)).

(** A match that starts at the first character of [s]. *)
Definition match_at (r : regex) (s : bytes) : option caps :=
  run r s (no_caps r) (fun w _ c => Some (set_cap 0 w c)).

(** [Regexp.FindStringSubmatch]: the leftmost match and its captures,
    [None] for Go's [nil]. *)
Fixpoint FindStringSubmatch (r : regex) (s : bytes) : option (list bytes) :=
  match match_at r s with
  | Some c => Some c
  | None =>
      match s with
      | [] => None
      | _ :: t => FindStringSubmatch r t
      end
  end.

Definition MatchString (r : regex) (s : bytes) : bool :=
  match FindStringSubmatch r s with Some _ => true | None => false end.

(** ** The line prefix *)

Definition d2 : regex := times 2 (Class digit).
Definition d4 : regex := times 4 (Class digit).

(** [LogLinePattern]: the letter L and a space, group 1 with the date
    (two digits, two digits, four digits, separated by slashes), space,
    dash, space and the time (three times two digits, separated by colons),
    then a colon and a space, and group 2 with the rest of the line. *)
Definition LogLinePattern : regex :=
  seq [ Lit "L ";
        Group 1 (seq [d2; Lit "/"; d2; Lit "/"; d4; Lit " - ";
                      d2; Lit ":"; d2; Lit ":"; d2]);
        Lit ": ";
        Group 2 (Star dot) ].

(** ** Library functions the program calls *)

(** Go's [int] and [uint], 64 bits wide. *)
Definition int := Z.
Definition intSize : Z := 64.
Definition minInt : int := (- 2 ^ (intSize - 1))%Z.
Definition maxInt : int := (2 ^ (intSize - 1) - 1)%Z.

(** The conversion [uint(p)] of an [int]: the same 64 bits, unsigned. *)
Definition uint (p : int) : Z := (p mod 2 ^ intSize)%Z.

Definition digit_val (c : ascii) : Z := (Z.of_nat (code c) - 48)%Z.

(** Package [strconv]: [Atoi] accepts an optional sign followed by one or
    more decimal digits, and fails with [ErrSyntax] on any other text and
    with [ErrRange] when the number does not fit an [int]. *)
Module strconv.

Inductive NumError : Type := ErrSyntax | ErrRange.

Fixpoint decimal (s : bytes) (acc : Z) : option Z :=
  match s with
  | [] => Some acc
  | c :: t => if digit c then decimal t (acc * 10 + digit_val c)%Z else None
  end.

Definition sign (s : bytes) : bool * bytes :=
  match s with
  | c :: t =>
      if Ascii.eqb c "-" then (true, t)
      else if Ascii.eqb c "+" then (false, t)
      else (false, s)
  | [] => (false, [])
  end.

Definition Atoi (s : bytes) : int + NumError :=
  let (neg, ds) := sign s in
  match ds with
  | [] => inr ErrSyntax
  | _ :: _ =>
      match decimal ds 0 with
      | None => inr ErrSyntax
      | Some v =>
          let n := if neg then (- v)%Z else v in
          if ((minInt <=? n) && (n <=? maxInt))%Z then inl n
          else inr ErrRange
      end
  end.

End strconv.

(** Package [time]: [Parse] for the layout [01/02/2006 - 15:04:05], the
    only one the program uses.  The layout is a two-digit month, a slash,
    a two-digit day, a slash, a four-digit year, the text space dash space,
    the hour (one or two digits), a colon, a two-digit minute, a colon and
    a two-digit second; then the value must be at its end.  The month must
    be in 1..12, the hour below 24, minute and second below 60, and the day
    must exist in that month of that year.  (The library also accepts a
    fraction after the seconds and runs of spaces for a space of the
    layout; neither occurs in a text captured by group 1 of
    [LogLinePattern], the only text [Parse] is called on.)  The result has
    no time zone (UTC) and no fraction of a second. *)
Module time.

Record Time : Type := Date {
  Year : Z; Month : Z; Day : Z; Hour : Z; Minute : Z; Second : Z
}.

Definition getnum (s : bytes) (fixed : bool) : option (Z * bytes) :=
  match s with
  | a :: t =>
      if digit a then
        match t with
        | b :: t' =>
            if digit b then Some (digit_val a * 10 + digit_val b, t')%Z
            else if fixed then None else Some (digit_val a, t)
        | [] => if fixed then None else Some (digit_val a, t)
        end
      else None
  | [] => None
  end.

Definition getyear (s : bytes) : option (Z * bytes) :=
  match s with
  | a :: b :: c :: d :: t =>
      if digit a && digit b && digit c && digit d
      then Some (((digit_val a * 10 + digit_val b) * 10 + digit_val c) * 10
                 + digit_val d, t)%Z
      else None
  | _ => None
  end.

Definition isLeap (year : Z) : bool :=
  ((year mod 4 =? 0) && (negb (year mod 100 =? 0) || (year mod 400 =? 0)))%Z.

Definition daysIn (month year : Z) : Z :=
  (if (month =? 2) then (if isLeap year then 29 else 28)
   else if (month =? 4) || (month =? 6) || (month =? 9) || (month =? 11)
        then 30 else 31)%Z.

Definition Parse (value : bytes) : option Time :=
  match getnum value true with None => None | Some (month, v1) =>
  if negb ((1 <=? month) && (month <=? 12))%Z then None else
  match strip "/" v1 with None => None | Some v2 =>
  match getnum v2 true with None => None | Some (day, v3) =>
  match strip "/" v3 with None => None | Some v4 =>
  match getyear v4 with None => None | Some (year, v5) =>
  match strip " - " v5 with None => None | Some v6 =>
  match getnum v6 false with None => None | Some (hour, v7) =>
  if negb (hour <? 24)%Z then None else
  match strip ":" v7 with None => None | Some v8 =>
  match getnum v8 true with None => None | Some (min, v9) =>
  if negb (min <? 60)%Z then None else
  match strip ":" v9 with None => None | Some v10 =>
  match getnum v10 true with None => None | Some (sec, v11) =>
  if negb (sec <? 60)%Z then None else
  match v11 with _ :: _ => None | [] =>
  if negb ((1 <=? day) && (day <=? daysIn month year))%Z then None else
  Some (Date year month day hour min sec)
  end end end end end end end end end end end end.

End time.

(** ** Data model *)

Record Player : Type := {
  Name : bytes; ID : int; SteamID : bytes; Side : bytes
}.

Inductive Position : Type := mkPosition (X Y Z : int).

(** A [float32] is kept as the 32 bits of its IEEE 754 encoding. *)
Definition float32 := Z.
Definition float32_zero : float32 := 0%Z.

Inductive PositionFloat : Type := mkPositionFloat (X Y Z : float32).
Inductive Velocity : Type := mkVelocity (X Y Z : float32).

(** [A + B = Result] *)
Inductive Equation : Type := mkEquation (A B Result : int).

Record Meta : Type := {
  Time : time.Time;
  Type_ : bytes
}.

Record Get5EventParams : Type := {
  MapNumber : int; MapName : bytes;
  Team1Name : bytes; Team1Score : int; Team1SeriesScore : int;
  Team2Name : bytes; Team2Score : int; Team2SeriesScore : int;
  Headshot : int; Weapon : bytes; Reason : int; Message_ : bytes;
  File : bytes; Site : int; Stage : bytes;
  Victim : bytes; Attacker : bytes
}.

(** The structs that implement the interface [Message]; every one embeds
    [Meta]. *)
Inductive Message : Type :=
| ServerMessage (meta : Meta) (Text : bytes)
| FreezTimeStart (meta : Meta)
| WorldMatchStart (meta : Meta) (Map : bytes)
| WorldRoundStart (meta : Meta)
| WorldRoundRestart (meta : Meta) (Timeleft : int)
| WorldRoundEnd (meta : Meta)
| WorldGameCommencing (meta : Meta)
| TeamScored (meta : Meta) (Side : bytes) (Score NumPlayers : int)
| TeamNotice (meta : Meta) (Side Notice : bytes) (ScoreCT ScoreT : int)
| PlayerConnected (meta : Meta) (Player : Player) (Address : bytes)
| PlayerDisconnected (meta : Meta) (Player : Player) (Reason : bytes)
| PlayerEntered (meta : Meta) (Player : Player)
| PlayerBanned (meta : Meta) (Player : Player) (Duration By : bytes)
| PlayerSwitched (meta : Meta) (Player : Player) (From To : bytes)
| PlayerSay (meta : Meta) (Player : Player) (Text : bytes) (Team : bool)
| PlayerPurchase (meta : Meta) (Player : Player) (Item : bytes)
| PlayerKill (meta : Meta) (Attacker : Player) (AttackerPosition : Position)
    (Victim : Player) (VictimPosition : Position) (Weapon : bytes)
    (Headshot Penetrated : bool)
| PlayerKillAssist (meta : Meta) (Attacker Victim : Player)
| PlayerAttack (meta : Meta) (Attacker : Player) (AttackerPosition : Position)
    (Victim : Player) (VictimPosition : Position) (Weapon : bytes)
    (Damage DamageArmor Health Armor : int) (Hitgroup : bytes)
| PlayerKilledBomb (meta : Meta) (Player : Player) (Position : Position)
| PlayerKilledSuicide (meta : Meta) (Player : Player) (Position : Position)
    (With : bytes)
| PlayerPickedUp (meta : Meta) (Player : Player) (Item : bytes)
| PlayerDropped (meta : Meta) (Player : Player) (Item : bytes)
| PlayerMoneyChange (meta : Meta) (Player : Player) (Equation : Equation)
    (Purchase : bytes)
| PlayerBombGot (meta : Meta) (Player : Player)
| PlayerBombPlanted (meta : Meta) (Player : Player)
| PlayerBombDropped (meta : Meta) (Player : Player)
| PlayerBombBeginDefuse (meta : Meta) (Player : Player) (Kit : bool)
| PlayerBombDefused (meta : Meta) (Player : Player)
| PlayerThrew (meta : Meta) (Player : Player) (Position : Position)
    (Entindex : int) (Grenade : bytes)
| PlayerBlinded (meta : Meta) (Attacker Victim : Player) (For : float32)
    (Entindex : int)
| ProjectileSpawned (meta : Meta) (Position : PositionFloat)
    (Velocity : Velocity)
| GameOver (meta : Meta) (Mode MapGroup Map : bytes)
    (ScoreCT ScoreT Duration : int)
| ServerCvar (meta : Meta) (Key Value : bytes)
| Get5Event (meta : Meta) (Matchid : bytes) (Params : Get5EventParams)
    (Event : bytes)
| Rcon (meta : Meta) (IP : bytes) (Port : Z) (Command : bytes)
| PlayerKillOther (meta : Meta) (Attacker : Player)
    (AttackerPosition : Position) (Victim VictimID : bytes)
    (VictimPosition : Position) (Weapon : bytes)
| Unknown (meta : Meta) (Raw : bytes).

(** The embedded [Meta] of a message. *)
Definition meta_of (m : Message) : Meta :=
  match m with
  | ServerMessage mt _ | FreezTimeStart mt | WorldMatchStart mt _
  | WorldRoundStart mt | WorldRoundRestart mt _ | WorldRoundEnd mt
  | WorldGameCommencing mt | TeamScored mt _ _ _ | TeamNotice mt _ _ _ _
  | PlayerConnected mt _ _ | PlayerDisconnected mt _ _ | PlayerEntered mt _
  | PlayerBanned mt _ _ _ | PlayerSwitched mt _ _ _ | PlayerSay mt _ _ _
  | PlayerPurchase mt _ _ | PlayerKill mt _ _ _ _ _ _ _
  | PlayerKillAssist mt _ _ | PlayerAttack mt _ _ _ _ _ _ _ _ _ _
  | PlayerKilledBomb mt _ _ | PlayerKilledSuicide mt _ _ _
  | PlayerPickedUp mt _ _ | PlayerDropped mt _ _
  | PlayerMoneyChange mt _ _ _ | PlayerBombGot mt _ | PlayerBombPlanted mt _
  | PlayerBombDropped mt _ | PlayerBombBeginDefuse mt _ _
  | PlayerBombDefused mt _ | PlayerThrew mt _ _ _ _
  | PlayerBlinded mt _ _ _ _ | ProjectileSpawned mt _ _
  | GameOver mt _ _ _ _ _ _ | ServerCvar mt _ _ | Get5Event mt _ _ _
  | Rcon mt _ _ _ | PlayerKillOther mt _ _ _ _ _ _ | Unknown mt _ => mt
  end.

Definition GetType (m : Message) : bytes := Type_ (meta_of m).
Definition GetTime (m : Message) : time.Time := Time (meta_of m).

(** ** The patterns of the recognizers

    Each pattern constant of the source is given as the syntax tree that
    [regexp.MustCompile] builds for it.  Shared pieces first. *)

(** The characters of a Steam id: a word character or a colon. *)
Definition steamid : ascii -> bool := or_class word (Ascii.eqb ":").

(** The start of a player: a quote, then the name (group [n], any text),
    the id in angle brackets (group [n+1], digits) and the Steam id in
    angle brackets (group [n+2]). *)
Definition who (n : nat) : regex :=
  seq [ Lit dq; Group n (Plus dot); Lit "<"; Group (n + 1) (Plus digit);
        Lit "><"; Group (n + 2) (Plus steamid); Lit ">" ].

(** An alternation of literal texts. *)
Definition oneof (ls : list string) : regex := alts (map of_string ls).

(** A player with side TERRORIST or CT (group [n+3]) and the closing
    quote. *)
Definition player (n : nat) : regex :=
  seq [ who n; Lit "<"; Group (n + 3) (oneof ["TERRORIST"; "CT"]);
        Lit (">" +++ dq) ].

(** A possibly negative integer. *)
Definition sint : regex := Cat (Quest (Lit "-")) (Plus digit).

(** A position in square brackets: three integers, groups [n], [n+1],
    [n+2]. *)
Definition position (n : nat) : regex :=
  seq [ Lit "["; Group n sint; Lit " "; Group (n + 1) sint; Lit " ";
        Group (n + 2) sint; Lit "]" ].

(** A decimal number with a fraction, possibly negative. *)
Definition fnum : regex :=
  seq [ Quest (Lit "-"); Plus digit; Lit "."; Plus digit ].

Definition ServerMessagePattern : regex :=
  seq [ Lit ("server_message: " +++ dq); Group 1 (Plus word); Lit dq ].

Definition FreezTimeStartPattern : regex := Lit "Starting Freeze period".

Definition WorldMatchStartPattern : regex :=
  seq [ Lit ("World triggered " +++ quoted "Match_Start" +++ " on " +++ dq);
        Group 1 (Plus word); Lit dq ].

Definition WorldRoundStartPattern : regex :=
  Lit ("World triggered " +++ quoted "Round_Start").

Definition WorldRoundRestartPattern : regex :=
  seq [ Lit ("World triggered " +++ dq +++ "Restart_Round_(");
        Group 1 (Plus digit); Lit "_second)" ].

Definition WorldRoundEndPattern : regex :=
  Lit ("World triggered " +++ quoted "Round_End").

Definition WorldGameCommencingPattern : regex :=
  Lit ("World triggered " +++ quoted "Game_Commencing").

Definition TeamScoredPattern : regex :=
  seq [ Lit ("Team " +++ dq); Group 1 (oneof ["CT"; "TERRORIST"]);
        Lit (dq +++ " scored " +++ dq); Group 2 (Plus digit);
        Lit (dq +++ " with " +++ dq); Group 3 (Plus digit);
        Lit (dq +++ " players") ].

Definition TeamNoticePattern : regex :=
  seq [ Lit ("Team " +++ dq); Group 1 (oneof ["CT"; "TERRORIST"]);
        Lit (dq +++ " triggered " +++ dq); Group 2 (Plus word);
        Lit (dq +++ " (CT " +++ dq); Group 3 (Plus digit);
        Lit (dq +++ ") (T " +++ dq); Group 4 (Plus digit);
        Lit (dq +++ ")") ].

Definition PlayerConnectedPattern : regex :=
  seq [ who 1; Lit ("<>" +++ dq +++ " connected, address " +++ dq);
        Group 4 (Star dot); Lit dq ].

Definition PlayerDisconnectedPattern : regex :=
  seq [ who 1; Lit "<";
        Group 4 (oneof ["TERRORIST"; "CT"; "Unassigned"; EmptyString]);
        Lit (">" +++ dq +++ " disconnected (reason " +++ dq);
        Group 5 (Plus dot); Lit (dq +++ ")") ].

Definition PlayerEnteredPattern : regex :=
  seq [ who 1; Lit ("<>" +++ dq +++ " entered the game") ].

Definition PlayerBannedPattern : regex :=
  seq [ Lit "Banid: "; who 1; Lit "<"; Star word;
        Lit (">" +++ dq +++ " was banned " +++ dq);
        Group 4 (Plus (or_class word
                         (or_class (Ascii.eqb ".") (Ascii.eqb " "))));
        Lit (dq +++ " by " +++ dq); Group 5 (Plus word); Lit dq ].

Definition PlayerSwitchedPattern : regex :=
  seq [ who 1; Lit (dq +++ " switched from team <");
        Group 4 (oneof ["Unassigned"; "Spectator"; "TERRORIST"; "CT"]);
        Lit "> to <";
        Group 5 (oneof ["Unassigned"; "Spectator"; "TERRORIST"; "CT"]);
        Lit ">" ].

Definition PlayerSayPattern : regex :=
  seq [ player 1; Lit " say"; Quest (Group 5 (Lit "_team"));
        Lit (" " +++ dq); Group 6 (Star dot); Lit dq ].

Definition PlayerPurchasePattern : regex :=
  seq [ player 1; Lit (" purchased " +++ dq); Group 5 (Plus word); Lit dq ].

Definition PlayerKillPattern : regex :=
  seq [ player 1; Lit " "; position 5; Lit " killed "; player 8; Lit " ";
        position 12; Lit (" with " +++ dq); Group 15 (Plus word); Lit dq;
        Quest (Lit " ");
        Quest (Group 16
                 (seq [ Quest (Lit "(");
                        Quest (Group 17
                                 (oneof ["headshot"; "penetrated";
                                         "headshot penetrated"]));
                        Lit ")" ])) ].

Definition PlayerKillAssistPattern : regex :=
  seq [ player 1; Lit " assisted killing "; player 5 ].

Definition PlayerAttackPattern : regex :=
  seq [ player 1; Lit " "; position 5; Lit " attacked "; player 8; Lit " ";
        position 12; Lit (" with " +++ dq); Group 15 (Plus word);
        Lit (dq +++ " (damage " +++ dq); Group 16 (Plus digit);
        Lit (dq +++ ") (damage_armor " +++ dq); Group 17 (Plus digit);
        Lit (dq +++ ") (health " +++ dq); Group 18 (Plus digit);
        Lit (dq +++ ") (armor " +++ dq); Group 19 (Plus digit);
        Lit (dq +++ ") (hitgroup " +++ dq);
        Group 20 (Plus (or_class word (Ascii.eqb " ")));
        Lit (dq +++ ")") ].

Definition PlayerKilledBombPattern : regex :=
  seq [ player 1; Lit " "; position 5; Lit " was killed by the bomb." ].

Definition PlayerKilledSuicidePattern : regex :=
  seq [ player 1; Lit " "; position 5;
        Lit (" committed suicide with " +++ dq); Group 8 (Star dot);
        Lit dq ].

Definition PlayerPickedUpPattern : regex :=
  seq [ player 1; Lit (" picked up " +++ dq); Group 5 (Plus word); Lit dq ].

Definition PlayerDroppedPattern : regex :=
  seq [ who 1; Lit "<"; Group 4 (oneof ["TERRORIST"; "CT"; "Unassigned"]);
        Lit (">" +++ dq +++ " dropped " +++ dq); Group 5 (Plus word);
        Lit dq ].

Definition PlayerMoneyChangePattern : regex :=
  seq [ player 1; Lit " money change "; Group 5 (Plus digit);
        Quest (Lit "+"); Group 6 sint; Lit " = $"; Group 7 (Plus digit);
        Lit " (tracked)";
        Quest (Group 8 (seq [ Lit " (purchase: "; Group 9 (Plus word);
                              Lit ")" ])) ].

Definition PlayerBombGotPattern : regex :=
  seq [ player 1; Lit (" triggered " +++ quoted "Got_The_Bomb") ].

Definition PlayerBombPlantedPattern : regex :=
  seq [ player 1; Lit (" triggered " +++ quoted "Planted_The_Bomb") ].

Definition PlayerBombDroppedPattern : regex :=
  seq [ player 1; Lit (" triggered " +++ quoted "Dropped_The_Bomb") ].

Definition PlayerBombBeginDefusePattern : regex :=
  seq [ player 1; Lit (" triggered " +++ dq +++ "Begin_Bomb_Defuse_With");
        Quest (Group 5 (Lit "out")); Lit ("_Kit" +++ dq) ].

Definition PlayerBombDefusedPattern : regex :=
  seq [ player 1; Lit (" triggered " +++ quoted "Defused_The_Bomb") ].

Definition PlayerThrewPattern : regex :=
  seq [ player 1; Lit " threw "; Group 5 (Plus word); Lit " "; position 6;
        Quest (Group 9 (seq [ Lit " flashbang entindex ";
                              Group 10 (Plus digit) ]));
        Quest (Lit ")") ].

Definition PlayerBlindedPattern : regex :=
  seq [ player 1; Lit " blinded for ";
        Group 5 (Plus (or_class digit (Ascii.eqb ".")));
        Lit " by "; player 6; Lit " from flashbang entindex ";
        Group 10 (Plus digit) ].

Definition ProjectileSpawnedPattern : regex :=
  seq [ Lit "Molotov projectile spawned at "; Group 1 fnum; Lit " ";
        Group 2 fnum; Lit " "; Group 3 fnum; Lit ", velocity ";
        Group 4 fnum; Lit " "; Group 5 fnum; Lit " "; Group 6 fnum ].

Definition GameOverPattern : regex :=
  seq [ Lit "Game Over: "; Group 1 (Plus word); Lit " ";
        Group 2 (Plus word); Lit " "; Group 3 (Plus word); Lit " score ";
        Group 4 (Plus digit); Lit ":"; Group 5 (Plus digit); Lit " after ";
        Group 6 (Plus digit); Lit " min" ].

Definition ServerCvarPattern : regex :=
  seq [ Lit ("server_cvar: " +++ dq); Group 1 (Plus word);
        Lit (dq +++ " " +++ dq); Group 2 (Star dot); Lit dq ].

(** The names of the get5 events (the values of the constants of type
    [Get5Events]), in the order of the alternation of
    [Get5EventPattern]. *)
Definition get5_event_names : list string :=
  [ "series_start"; "map_veto"; "map_pick"; "side_picked"; "knife_start";
    "knife_won"; "going_live"; "player_death"; "round_end"; "side_swap";
    "map_end"; "series_end"; "backup_loaded"; "match_config_load_fail";
    "client_say"; "bomb_planted"; "bomb_defused"; "bomb_exploded";
    "player_connect"; "player_disconnect"; "team_ready"; "team_unready" ].

Definition Get5EventPattern : regex :=
  seq [ Lit ("get5_event: {" +++ dq +++ "matchid"); Group 1 (Star dot);
        Lit (dq +++ ":" +++ dq); Group 2 (Star word);
        Lit (dq +++ "," +++ quoted "params" +++ ":"); Group 3 (Star dot);
        Lit ("," +++ quoted "event" +++ ":" +++ dq);
        Group 4 (oneof get5_event_names); Lit (dq +++ "}") ].

Definition RconEventPattern : regex :=
  seq [ Lit ("rcon from " +++ dq); Group 1 (Star dot); Lit ":";
        Group 2 (Plus digit); Lit (dq +++ ": command " +++ dq);
        Group 3 (Star dot); Lit dq ].

Definition PlayerKillOtherPattern : regex :=
  seq [ player 1; Lit " "; position 5; Lit (" killed other " +++ dq);
        Group 8 (Plus dot); Lit "<"; Group 9 (Plus digit);
        Lit (">" +++ dq +++ " "); position 10; Lit (" with " +++ dq);
        Group 13 (Plus word); Lit dq ].

(** ** Extractors *)

(** The two library functions that are left abstract: [strconv.ParseFloat]
    with bit size 32 followed by the conversion to [float32], and
    [json.Unmarshal] into a [Get5EventParams]; [None] stands for a non-nil
    error. *)
Class Library : Type := {
  ParseFloat32 : bytes -> option float32;
  Unmarshal : bytes -> option Get5EventParams
}.

(** An element [r[i]] of a slice; [None] when the index is out of range,
    where Go panics. *)
Notation "r .[ i ]" := (nth_error r i)
  (at level 1, left associativity, format "r .[ i ]").

(** Sequencing of steps that can panic. *)
Definition bind {A B : Type} (o : option A) (f : A -> option B) : option B :=
  match o with
  | Some x => f x
  | None => None
  end.

Notation "x <- e ;; f" := (bind e (fun x => f))
  (at level 61, e at next level, right associativity).

(** toInt converts string to int, assigns 0 when not convertable *)
Definition toInt (v : bytes) : int :=
  match strconv.Atoi v with
  | inr _ => 0%Z
  | inl i => i
  end.

Definition NewMeta (ti : time.Time) (ty : bytes) : Meta :=
  {| Time := ti; Type_ := ty |}.

(** An extractor builds a message from the time and the captures; [None]
    is a panic (an index out of range). *)
Definition MessageFunc := time.Time -> list bytes -> option Message.

Definition NewUnknown : MessageFunc := fun ti r =>
  r1 <- r.[1] ;;
  Some (Unknown (NewMeta ti "Unknown") r1).

Definition NewServerMessage : MessageFunc := fun ti r =>
  r1 <- r.[1] ;;
  Some (ServerMessage (NewMeta ti "ServerMessage") r1).

Definition NewFreezTimeStart : MessageFunc := fun ti r =>
  Some (FreezTimeStart (NewMeta ti "FreezTimeStart")).

Definition NewWorldMatchStart : MessageFunc := fun ti r =>
  r1 <- r.[1] ;;
  Some (WorldMatchStart (NewMeta ti "WorldMatchStart") r1).

Definition NewWorldRoundStart : MessageFunc := fun ti r =>
  Some (WorldRoundStart (NewMeta ti "WorldRoundStart")).

Definition NewWorldRoundRestart : MessageFunc := fun ti r =>
  r1 <- r.[1] ;;
  Some (WorldRoundRestart (NewMeta ti "WorldRoundRestart") (toInt r1)).

Definition NewWorldRoundEnd : MessageFunc := fun ti r =>
  Some (WorldRoundEnd (NewMeta ti "WorldRoundEnd")).

Definition NewWorldGameCommencing : MessageFunc := fun ti r =>
  Some (WorldGameCommencing (NewMeta ti "WorldGameCommencing")).

Definition NewTeamScored : MessageFunc := fun ti r =>
  r1 <- r.[1] ;; r2 <- r.[2] ;; r3 <- r.[3] ;;
  Some (TeamScored (NewMeta ti "TeamScored") r1 (toInt r2) (toInt r3)).

Definition NewTeamNotice : MessageFunc := fun ti r =>
  r1 <- r.[1] ;; r2 <- r.[2] ;; r3 <- r.[3] ;; r4 <- r.[4] ;;
  Some (TeamNotice (NewMeta ti "TeamNotice") r1 r2 (toInt r3) (toInt r4)).

Definition NewPlayerConnected : MessageFunc := fun ti r =>
  r1 <- r.[1] ;; r2 <- r.[2] ;; r3 <- r.[3] ;; r4 <- r.[4] ;;
  Some (PlayerConnected (NewMeta ti "PlayerConnected")
          {| Name := r1; ID := toInt r2; SteamID := r3; Side := [] |}
          r4).

Definition NewPlayerDisconnected : MessageFunc := fun ti r =>
  r1 <- r.[1] ;; r2 <- r.[2] ;; r3 <- r.[3] ;; r4 <- r.[4] ;;
  r5 <- r.[5] ;;
  Some (PlayerDisconnected (NewMeta ti "PlayerDisconnected")
          {| Name := r1; ID := toInt r2; SteamID := r3; Side := r4 |}
          r5).

Definition NewPlayerEntered : MessageFunc := fun ti r =>
  r1 <- r.[1] ;; r2 <- r.[2] ;; r3 <- r.[3] ;;
  Some (PlayerEntered (NewMeta ti "PlayerEntered")
          {| Name := r1; ID := toInt r2; SteamID := r3; Side := [] |}).

Definition NewPlayerBanned : MessageFunc := fun ti r =>
  r1 <- r.[1] ;; r2 <- r.[2] ;; r3 <- r.[3] ;; r4 <- r.[4] ;;
  r5 <- r.[5] ;;
  Some (PlayerBanned (NewMeta ti "PlayerBanned")
          {| Name := r1; ID := toInt r2; SteamID := r3; Side := [] |}
          r4 r5).

Definition NewPlayerSwitched : MessageFunc := fun ti r =>
  r1 <- r.[1] ;; r2 <- r.[2] ;; r3 <- r.[3] ;; r4 <- r.[4] ;;
  r5 <- r.[5] ;;
  Some (PlayerSwitched (NewMeta ti "PlayerSwitched")
          {| Name := r1; ID := toInt r2; SteamID := r3; Side := [] |}
          r4 r5).

Definition NewPlayerSay : MessageFunc := fun ti r =>
  r1 <- r.[1] ;; r2 <- r.[2] ;; r3 <- r.[3] ;; r4 <- r.[4] ;;
  r5 <- r.[5] ;; r6 <- r.[6] ;;
  Some (PlayerSay (NewMeta ti "PlayerSay")
          {| Name := r1; ID := toInt r2; SteamID := r3; Side := r4 |}
          r6 (bytes_eqb r5 "_team")).

Definition NewPlayerPurchase : MessageFunc := fun ti r =>
  r1 <- r.[1] ;; r2 <- r.[2] ;; r3 <- r.[3] ;; r4 <- r.[4] ;;
  r5 <- r.[5] ;;
  Some (PlayerPurchase (NewMeta ti "PlayerPurchase")
          {| Name := r1; ID := toInt r2; SteamID := r3; Side := r4 |}
          r5).

Definition NewPlayerKill : MessageFunc := fun ti r =>
  r1 <- r.[1] ;; r2 <- r.[2] ;; r3 <- r.[3] ;; r4 <- r.[4] ;;
  r5 <- r.[5] ;; r6 <- r.[6] ;; r7 <- r.[7] ;;
  r8 <- r.[8] ;; r9 <- r.[9] ;; r10 <- r.[10] ;; r11 <- r.[11] ;;
  r12 <- r.[12] ;; r13 <- r.[13] ;; r14 <- r.[14] ;;
  r15 <- r.[15] ;; r17 <- r.[17] ;;
  Some (PlayerKill (NewMeta ti "PlayerKill")
          {| Name := r1; ID := toInt r2; SteamID := r3; Side := r4 |}
          (mkPosition (toInt r5) (toInt r6) (toInt r7))
          {| Name := r8; ID := toInt r9; SteamID := r10; Side := r11 |}
          (mkPosition (toInt r12) (toInt r13) (toInt r14))
          r15
          (strings.Contains r17 "headshot")
          (strings.Contains r17 "penetrated")).

Definition NewPlayerKillAssist : MessageFunc := fun ti r =>
  r1 <- r.[1] ;; r2 <- r.[2] ;; r3 <- r.[3] ;; r4 <- r.[4] ;;
  r5 <- r.[5] ;; r6 <- r.[6] ;; r7 <- r.[7] ;; r8 <- r.[8] ;;
  Some (PlayerKillAssist (NewMeta ti "PlayerKillAssist")
          {| Name := r1; ID := toInt r2; SteamID := r3; Side := r4 |}
          {| Name := r5; ID := toInt r6; SteamID := r7; Side := r8 |}).

Definition NewPlayerAttack : MessageFunc := fun ti r =>
  r1 <- r.[1] ;; r2 <- r.[2] ;; r3 <- r.[3] ;; r4 <- r.[4] ;;
  r5 <- r.[5] ;; r6 <- r.[6] ;; r7 <- r.[7] ;;
  r8 <- r.[8] ;; r9 <- r.[9] ;; r10 <- r.[10] ;; r11 <- r.[11] ;;
  r12 <- r.[12] ;; r13 <- r.[13] ;; r14 <- r.[14] ;;
  r15 <- r.[15] ;; r16 <- r.[16] ;; r17 <- r.[17] ;; r18 <- r.[18] ;;
  r19 <- r.[19] ;; r20 <- r.[20] ;;
  Some (PlayerAttack (NewMeta ti "PlayerAttack")
          {| Name := r1; ID := toInt r2; SteamID := r3; Side := r4 |}
          (mkPosition (toInt r5) (toInt r6) (toInt r7))
          {| Name := r8; ID := toInt r9; SteamID := r10; Side := r11 |}
          (mkPosition (toInt r12) (toInt r13) (toInt r14))
          r15 (toInt r16) (toInt r17) (toInt r18) (toInt r19) r20).

Definition NewPlayerKilledBomb : MessageFunc := fun ti r =>
  r1 <- r.[1] ;; r2 <- r.[2] ;; r3 <- r.[3] ;; r4 <- r.[4] ;;
  r5 <- r.[5] ;; r6 <- r.[6] ;; r7 <- r.[7] ;;
  Some (PlayerKilledBomb (NewMeta ti "PlayerKilledBomb")
          {| Name := r1; ID := toInt r2; SteamID := r3; Side := r4 |}
          (mkPosition (toInt r5) (toInt r6) (toInt r7))).

Definition NewPlayerKilledSuicide : MessageFunc := fun ti r =>
  r1 <- r.[1] ;; r2 <- r.[2] ;; r3 <- r.[3] ;; r4 <- r.[4] ;;
  r5 <- r.[5] ;; r6 <- r.[6] ;; r7 <- r.[7] ;; r8 <- r.[8] ;;
  Some (PlayerKilledSuicide (NewMeta ti "PlayerKilledSuicide")
          {| Name := r1; ID := toInt r2; SteamID := r3; Side := r4 |}
          (mkPosition (toInt r5) (toInt r6) (toInt r7))
          r8).

Definition NewPlayerPickedUp : MessageFunc := fun ti r =>
  r1 <- r.[1] ;; r2 <- r.[2] ;; r3 <- r.[3] ;; r4 <- r.[4] ;;
  r5 <- r.[5] ;;
  Some (PlayerPickedUp (NewMeta ti "PlayerPickedUp")
          {| Name := r1; ID := toInt r2; SteamID := r3; Side := r4 |}
          r5).

Definition NewPlayerDropped : MessageFunc := fun ti r =>
  r1 <- r.[1] ;; r2 <- r.[2] ;; r3 <- r.[3] ;; r4 <- r.[4] ;;
  r5 <- r.[5] ;;
  Some (PlayerDropped (NewMeta ti "PlayerDropped")
          {| Name := r1; ID := toInt r2; SteamID := r3; Side := r4 |}
          r5).

Definition NewPlayerMoneyChange : MessageFunc := fun ti r =>
  r1 <- r.[1] ;; r2 <- r.[2] ;; r3 <- r.[3] ;; r4 <- r.[4] ;;
  r5 <- r.[5] ;; r6 <- r.[6] ;; r7 <- r.[7] ;; r9 <- r.[9] ;;
  Some (PlayerMoneyChange (NewMeta ti "PlayerMoneyChange")
          {| Name := r1; ID := toInt r2; SteamID := r3; Side := r4 |}
          (mkEquation (toInt r5) (toInt r6) (toInt r7))
          r9).

Definition NewPlayerBombGot : MessageFunc := fun ti r =>
  r1 <- r.[1] ;; r2 <- r.[2] ;; r3 <- r.[3] ;; r4 <- r.[4] ;;
  Some (PlayerBombGot (NewMeta ti "PlayerBombGot")
          {| Name := r1; ID := toInt r2; SteamID := r3; Side := r4 |}).

Definition NewPlayerBombPlanted : MessageFunc := fun ti r =>
  r1 <- r.[1] ;; r2 <- r.[2] ;; r3 <- r.[3] ;; r4 <- r.[4] ;;
  Some (PlayerBombPlanted (NewMeta ti "PlayerBombPlanted")
          {| Name := r1; ID := toInt r2; SteamID := r3; Side := r4 |}).

Definition NewPlayerBombDropped : MessageFunc := fun ti r =>
  r1 <- r.[1] ;; r2 <- r.[2] ;; r3 <- r.[3] ;; r4 <- r.[4] ;;
  Some (PlayerBombDropped (NewMeta ti "PlayerBombDropped")
          {| Name := r1; ID := toInt r2; SteamID := r3; Side := r4 |}).

Definition NewPlayerBombBeginDefuse : MessageFunc := fun ti r =>
  r1 <- r.[1] ;; r2 <- r.[2] ;; r3 <- r.[3] ;; r4 <- r.[4] ;;
  r5 <- r.[5] ;;
  Some (PlayerBombBeginDefuse (NewMeta ti "PlayerBombBeginDefuse")
          {| Name := r1; ID := toInt r2; SteamID := r3; Side := r4 |}
          (negb (bytes_eqb r5 "out"))).

Definition NewPlayerBombDefused : MessageFunc := fun ti r =>
  r1 <- r.[1] ;; r2 <- r.[2] ;; r3 <- r.[3] ;; r4 <- r.[4] ;;
  Some (PlayerBombDefused (NewMeta ti "PlayerBombDefused")
          {| Name := r1; ID := toInt r2; SteamID := r3; Side := r4 |}).

Definition NewPlayerThrew : MessageFunc := fun ti r =>
  r1 <- r.[1] ;; r2 <- r.[2] ;; r3 <- r.[3] ;; r4 <- r.[4] ;;
  r5 <- r.[5] ;; r6 <- r.[6] ;; r7 <- r.[7] ;; r8 <- r.[8] ;;
  r10 <- r.[10] ;;
  Some (PlayerThrew (NewMeta ti "PlayerThrew")
          {| Name := r1; ID := toInt r2; SteamID := r3; Side := r4 |}
          (mkPosition (toInt r6) (toInt r7) (toInt r8))
          (toInt r10)
          r5).

Definition NewGameOver : MessageFunc := fun ti r =>
  r1 <- r.[1] ;; r2 <- r.[2] ;; r3 <- r.[3] ;; r4 <- r.[4] ;;
  r5 <- r.[5] ;; r6 <- r.[6] ;;
  Some (GameOver (NewMeta ti "GameOver") r1 r2 r3
          (toInt r4) (toInt r5) (toInt r6)).

Definition NewServerCvar : MessageFunc := fun ti r =>
  r1 <- r.[1] ;; r2 <- r.[2] ;;
  Some (ServerCvar (NewMeta ti "ServerCvar") r1 r2).

(** The port is converted with [strconv.Atoi] and then to [uint]. *)
Definition NewRconEvent : MessageFunc := fun ti r =>
  r2 <- r.[2] ;;
  match strconv.Atoi r2 with
  | inr _ => NewUnknown ti r
  | inl p =>
      r1 <- r.[1] ;; r3 <- r.[3] ;;
      Some (Rcon (NewMeta ti "Rcon") r1 (uint p) r3)
  end.

Definition NewPlayerKillOther : MessageFunc := fun ti r =>
  r1 <- r.[1] ;; r2 <- r.[2] ;; r3 <- r.[3] ;; r4 <- r.[4] ;;
  r5 <- r.[5] ;; r6 <- r.[6] ;; r7 <- r.[7] ;;
  r8 <- r.[8] ;; r9 <- r.[9] ;;
  r10 <- r.[10] ;; r11 <- r.[11] ;; r12 <- r.[12] ;; r13 <- r.[13] ;;
  Some (PlayerKillOther (NewMeta ti "PlayerKillOther")
          {| Name := r1; ID := toInt r2; SteamID := r3; Side := r4 |}
          (mkPosition (toInt r5) (toInt r6) (toInt r7))
          r8 r9
          (mkPosition (toInt r10) (toInt r11) (toInt r12))
          r13).

(** ** The table of recognizers and the parser *)

(** [ErrorNoMatch] and the error of [time.Parse], which carries the text
    that could not be parsed. *)
Inductive error : Type :=
| ErrorNoMatch
| ParseError (value : bytes).

(** What a call of the parser does: it returns a message, returns an
    error, or panics. *)
Inductive outcome : Type :=
| Returns (m : Message)
| Fails (err : error)
| Panics.

Definition returned (o : option Message) : outcome :=
  match o with
  | Some m => Returns m
  | None => Panics
  end.

(** A map from patterns to extractors, as the list of its entries. *)
Definition table := list (regex * MessageFunc).

Section Parser.

Context {lib : Library}.

Definition toFloat32 (v : bytes) : float32 :=
  match ParseFloat32 v with
  | None => float32_zero
  | Some i => i
  end.

Definition NewPlayerBlinded : MessageFunc := fun ti r =>
  r1 <- r.[1] ;; r2 <- r.[2] ;; r3 <- r.[3] ;; r4 <- r.[4] ;;
  r5 <- r.[5] ;;
  r6 <- r.[6] ;; r7 <- r.[7] ;; r8 <- r.[8] ;; r9 <- r.[9] ;;
  r10 <- r.[10] ;;
  Some (PlayerBlinded (NewMeta ti "PlayerBlinded")
          {| Name := r6; ID := toInt r7; SteamID := r8; Side := r9 |}
          {| Name := r1; ID := toInt r2; SteamID := r3; Side := r4 |}
          (toFloat32 r5)
          (toInt r10)).

Definition NewProjectileSpawned : MessageFunc := fun ti r =>
  r1 <- r.[1] ;; r2 <- r.[2] ;; r3 <- r.[3] ;;
  r4 <- r.[4] ;; r5 <- r.[5] ;; r6 <- r.[6] ;;
  Some (ProjectileSpawned (NewMeta ti "ProjectileSpawned")
          (mkPositionFloat (toFloat32 r1) (toFloat32 r2) (toFloat32 r3))
          (mkVelocity (toFloat32 r4) (toFloat32 r5) (toFloat32 r6))).

(** r[1]=ignored, r[2]=matchid, r[3]=params r[4]=event.  The params are
    decoded into a zero [Get5EventParams]; when that fails the error is
    logged and the message is an [Unknown]. *)
Definition NewGet5Event : MessageFunc := fun ti r =>
  r2 <- r.[2] ;; r4 <- r.[4] ;; r3 <- r.[3] ;;
  match Unmarshal r3 with
  | None => NewUnknown ti r
  | Some params => Some (Get5Event (NewMeta ti "Get5Event") r2 params r4)
  end.

Definition DefaultPatterns : table :=
  [ (ServerMessagePattern, NewServerMessage);
    (FreezTimeStartPattern, NewFreezTimeStart);
    (WorldMatchStartPattern, NewWorldMatchStart);
    (WorldRoundStartPattern, NewWorldRoundStart);
    (WorldRoundRestartPattern, NewWorldRoundRestart);
    (WorldRoundEndPattern, NewWorldRoundEnd);
    (WorldGameCommencingPattern, NewWorldGameCommencing);
    (TeamScoredPattern, NewTeamScored);
    (TeamNoticePattern, NewTeamNotice);
    (PlayerConnectedPattern, NewPlayerConnected);
    (PlayerDisconnectedPattern, NewPlayerDisconnected);
    (PlayerEnteredPattern, NewPlayerEntered);
    (PlayerBannedPattern, NewPlayerBanned);
    (PlayerSwitchedPattern, NewPlayerSwitched);
    (PlayerSayPattern, NewPlayerSay);
    (PlayerPurchasePattern, NewPlayerPurchase);
    (PlayerKillPattern, NewPlayerKill);
    (PlayerKillAssistPattern, NewPlayerKillAssist);
    (PlayerAttackPattern, NewPlayerAttack);
    (PlayerKilledBombPattern, NewPlayerKilledBomb);
    (PlayerKilledSuicidePattern, NewPlayerKilledSuicide);
    (PlayerPickedUpPattern, NewPlayerPickedUp);
    (PlayerDroppedPattern, NewPlayerDropped);
    (PlayerMoneyChangePattern, NewPlayerMoneyChange);
    (PlayerBombGotPattern, NewPlayerBombGot);
    (PlayerBombPlantedPattern, NewPlayerBombPlanted);
    (PlayerBombDroppedPattern, NewPlayerBombDropped);
    (PlayerBombBeginDefusePattern, NewPlayerBombBeginDefuse);
    (PlayerBombDefusedPattern, NewPlayerBombDefused);
    (PlayerThrewPattern, NewPlayerThrew);
    (PlayerBlindedPattern, NewPlayerBlinded);
    (ProjectileSpawnedPattern, NewProjectileSpawned);
    (GameOverPattern, NewGameOver);
    (ServerCvarPattern, NewServerCvar);
    (Get5EventPattern, NewGet5Event);
    (RconEventPattern, NewRconEvent);
    (PlayerKillOtherPattern, NewPlayerKillOther) ].

(** The loop over the patterns: the entries are tried in the order
    [patterns] and the first whose pattern matches [result[2]] decides;
    [None] when the loop ends without a match. *)
Fixpoint range_patterns (ti : time.Time) (result : list bytes)
    (patterns : table) : option outcome :=
  match patterns with
  | [] => None
  | (re, fn) :: rest =>
      match result.[2] with
      | None => Some Panics
      | Some payload =>
          match FindStringSubmatch re payload with
          | Some r => Some (returned (fn ti r))
          | None => range_patterns ti result rest
          end
      end
  end.

(** [ParseWithPatterns]; [patterns] lists the entries of the map in the
    order in which the loop of this call visits them. *)
Definition ParseWithPatterns (line : bytes) (patterns : table)
    : outcome :=
  match FindStringSubmatch LogLinePattern line with
  | None => Fails ErrorNoMatch
  | Some result =>
      match result.[1] with
      | None => Panics
      | Some stamp =>
          match time.Parse stamp with
          | None => Fails (ParseError stamp)
          | Some ti =>
              match range_patterns ti result patterns with
              | Some res => res
              | None => returned (NewUnknown ti (skipn 1 result))
              end
          end
      end
  end.

(** [Parse] runs [ParseWithPatterns] on the map [DefaultPatterns].  Go
    leaves the order in which a loop visits a map open, and it can differ
    from one call to the next: [Parse line res] says that [res] is the
    outcome of the call for one of these orders. *)
Definition Parse (line : bytes) (res : outcome) : Prop :=
  exists order : table,
    Permutation DefaultPatterns order /\
    ParseWithPatterns line order = res.

End Parser.

(** * Specification-level definitions *)

(** ** What a match is

    [matches r w c c']: the pattern [r] matches exactly the text [w], and
    turns the captures [c] into [c'].  The matcher finds only matches in
    this sense ([run_sound]) and finds one whenever there is one
    ([run_complete]); which of several matches it returns is fixed by its
    order of preference. *)

Inductive matches : regex -> bytes -> caps -> caps -> Prop :=
| m_lit l c : matches (Lit l) l c c
| m_class (p : ascii -> bool) x c : p x = true -> matches (Class p) [x] c c
| m_cat r1 r2 w1 w2 c c1 c2 :
    matches r1 w1 c c1 -> matches r2 w2 c1 c2 ->
    matches (Cat r1 r2) (w1 ++ w2) c c2
| m_alt_l r1 r2 w c c' : matches r1 w c c' -> matches (Alt r1 r2) w c c'
| m_alt_r r1 r2 w c c' : matches r2 w c c' -> matches (Alt r1 r2) w c c'
| m_quest_some r w c c' : matches r w c c' -> matches (Quest r) w c c'
| m_quest_none r c : matches (Quest r) [] c c
| m_star (p : ascii -> bool) w c :
    Forall (fun x => p x = true) w -> matches (Star p) w c c
| m_group n r w c c' :
    matches r w c c' -> matches (Group n r) w c (set_cap n w c').


(** ** The timestamp prefix in the words of the specification

    The grammar of the prefix without the regular expression: the letter L
    and a space, a stamp of the shape MM/DD/YYYY - HH:MM:SS (digits of
    exactly these widths, literal punctuation), a colon and a space. *)

Definition stamp_shape (ts : bytes) : bool :=
  match ts with
  | [m1; m2; sl1; d1; d2; sl2; y1; y2; y3; y4; sp1; da; sp2;
     h1; h2; co1; n1; n2; co2; s1; s2] =>
      digit m1 && digit m2 && Ascii.eqb "/" sl1 &&
      digit d1 && digit d2 && Ascii.eqb "/" sl2 &&
      digit y1 && digit y2 && digit y3 && digit y4 &&
      Ascii.eqb " " sp1 && Ascii.eqb "-" da && Ascii.eqb " " sp2 &&
      digit h1 && digit h2 && Ascii.eqb ":" co1 &&
      digit n1 && digit n2 && Ascii.eqb ":" co2 &&
      digit s1 && digit s2
  | _ => false
  end.

(** The prefix at the very start of a text: its stamp and the text that
    follows the prefix. *)
Definition prefix_here (s : bytes) : option (bytes * bytes) :=
  match strip "L " s with
  | None => None
  | Some s1 =>
      if stamp_shape (firstn 21 s1) then
        match strip ": " (skipn 21 s1) with
        | Some rest => Some (firstn 21 s1, rest)
        | None => None
        end
      else None
  end.

(** The first place of a text at which the prefix occurs. *)
Fixpoint first_prefix (s : bytes) : option (bytes * bytes) :=
  match prefix_here s with
  | Some found => Some found
  | None =>
      match s with
      | [] => None
      | _ :: t => first_prefix t
      end
  end.

Fixpoint take_while (p : ascii -> bool) (s : bytes) : bytes :=
  match s with
  | [] => []
  | x :: t => if p x then x :: take_while p t else []
  end.

Fixpoint drop_while (p : ascii -> bool) (s : bytes) : bytes :=
  match s with
  | [] => []
  | x :: t => if p x then drop_while p t else s
  end.

(** A text up to its first newline, or all of it when it has none. *)
Definition first_line (s : bytes) : bytes := take_while dot s.

(** The captures of [LogLinePattern] for a stamp and the text after the
    prefix. *)
Definition prefix_captures (found : bytes * bytes) : list bytes :=
  let (ts, rest) := found in
  [ "L " +++ ts +++ ": " +++ first_line rest; ts; first_line rest ].

(** The date and time that a stamp denotes, when its fields are those of
    a day of the calendar and of a time of the day. *)
Definition num2 (a b : ascii) : Z := (digit_val a * 10 + digit_val b)%Z.

Definition num4 (a b c d : ascii) : Z :=
  (((digit_val a * 10 + digit_val b) * 10 + digit_val c) * 10
   + digit_val d)%Z.

Definition calendar (ts : bytes) : option time.Time :=
  match ts with
  | [m1; m2; _; d1; d2; _; y1; y2; y3; y4; _; _; _;
     h1; h2; _; n1; n2; _; s1; s2] =>
      let month := num2 m1 m2 in
      let day := num2 d1 d2 in
      let year := num4 y1 y2 y3 y4 in
      let hour := num2 h1 h2 in
      let min := num2 n1 n2 in
      let sec := num2 s1 s2 in
      if ((1 <=? month) && (month <=? 12) &&
          (1 <=? day) && (day <=? time.daysIn month year) &&
          (hour <? 24) && (min <? 60) && (sec <? 60))%Z
      then Some (time.Date year month day hour min sec)
      else None
  | _ => None
  end.

(** ** Dispatch in the words of the specification

    The entries are tried in turn; the first whose pattern matches the
    payload gives the message; when none matches the message is an
    [Unknown] with the payload. *)
Fixpoint dispatch (ti : time.Time) (payload : bytes) (order : table)
  : outcome :=
  match order with
  | [] => Returns (Unknown (NewMeta ti "Unknown") payload)
  | (re, fn) :: rest =>
      match FindStringSubmatch re payload with
      | Some r => returned (fn ti r)
      | None => dispatch ti payload rest
      end
  end.

(** The patterns of [DefaultPatterns], the keys of the map. *)
Definition pattern_keys : list regex :=
  [ ServerMessagePattern; FreezTimeStartPattern; WorldMatchStartPattern;
    WorldRoundStartPattern; WorldRoundRestartPattern; WorldRoundEndPattern;
    WorldGameCommencingPattern; TeamScoredPattern; TeamNoticePattern;
    PlayerConnectedPattern; PlayerDisconnectedPattern; PlayerEnteredPattern;
    PlayerBannedPattern; PlayerSwitchedPattern; PlayerSayPattern;
    PlayerPurchasePattern; PlayerKillPattern; PlayerKillAssistPattern;
    PlayerAttackPattern; PlayerKilledBombPattern; PlayerKilledSuicidePattern;
    PlayerPickedUpPattern; PlayerDroppedPattern; PlayerMoneyChangePattern;
    PlayerBombGotPattern; PlayerBombPlantedPattern; PlayerBombDroppedPattern;
    PlayerBombBeginDefusePattern; PlayerBombDefusedPattern;
    PlayerThrewPattern; PlayerBlindedPattern; ProjectileSpawnedPattern;
    GameOverPattern; ServerCvarPattern; Get5EventPattern; RconEventPattern;
    PlayerKillOtherPattern ].

(** The patterns of the table that match a payload. *)
Definition matching (payload : bytes) : list regex :=
  filter (fun re => MatchString re payload) pattern_keys.

(** An entry of a table is well behaved when its extractor, given the
    captures of its pattern (one text per group and one for the whole
    match), does not panic and returns a message that carries the time it
    was given and a type tag that is not empty. *)
Definition well_behaved (e : regex * MessageFunc) : Prop :=
  forall ti r,
    length r = S (ngroups (fst e)) ->
    exists m, snd e ti r = Some m /\ GetTime m = ti /\ GetType m <> [].

(** Whether the pattern of an entry matches a payload, and the outcome of
    the entry on it. *)
Definition hit (payload : bytes) (e : regex * MessageFunc) : bool :=
  MatchString (fst e) payload.

Definition fire (ti : time.Time) (payload : bytes) (e : regex * MessageFunc)
  : outcome :=
  match FindStringSubmatch (fst e) payload with
  | Some r => returned (snd e ti r)
  | None => Returns (Unknown (NewMeta ti "Unknown") payload)
  end.

(** A text ends with a given text ([strings.HasSuffix] as a
    proposition). *)
Definition HasSuffix (s suffix : bytes) : Prop :=
  exists pre, s = pre ++ suffix.

(** * Sample data

    An instance of the two abstract library functions, lines and payloads
    on which the parser is run below.  The instance rejects every text,
    which is what the library does on the texts it is given here. *)

Definition rejecting : Library :=
  {| ParseFloat32 := fun _ => None; Unmarshal := fun _ => None |}.

Definition sample_time : time.Time := time.Date 2022 10 15 18 30 30.

Definition kill_payload : bytes :=
  quoted "A<1><STEAM_1:0:1><CT>" +++ " [1 -2 3] killed " +++
  quoted "B<2><BOT><TERRORIST>" +++ " [4 5 6] with " +++ quoted "ak47" +++
  " (headshot penetrated)".

Definition kill_captures : list bytes :=
  [ kill_payload; of_string "A"; of_string "1"; of_string "STEAM_1:0:1";
    of_string "CT"; of_string "1"; of_string "-2"; of_string "3";
    of_string "B"; of_string "2"; of_string "BOT"; of_string "TERRORIST";
    of_string "4"; of_string "5"; of_string "6"; of_string "ak47";
    of_string "(headshot penetrated)"; of_string "headshot penetrated" ].

Definition defuse_payload : bytes :=
  quoted "A<1><STEAM_1:0:1><CT>" +++ " triggered " +++
  quoted "Begin_Bomb_Defuse_Without_Kit".

Definition defuse_captures : list bytes :=
  [ defuse_payload; of_string "A"; of_string "1"; of_string "STEAM_1:0:1";
    of_string "CT"; of_string "out" ].

Definition unknown_stamp : bytes := of_string "10/15/2022 - 18:32:00".

Definition unknown_payload : bytes :=
  of_string "some totally unrecognized freeform text".

Definition unknown_time : time.Time := time.Date 2022 10 15 18 32 0.

(** A chat line whose text quotes another message of the server. *)
Definition quoting_payload : bytes :=
  quoted "Bob<1><STEAM_1:0:1><CT>" +++ " say " +++
  quoted "Starting Freeze period".

Definition quoting_line : bytes := "L 10/15/2022 - 18:30:30: " +++ quoting_payload.

(** A line in which the prefix occurs twice, the first time with a stamp
    that is no date. *)
Definition twice_stamped_line : bytes :=
  of_string "L 99/99/9999 - 99:99:99: L 10/15/2022 - 18:30:30: hello".

(** A line with text before the prefix. *)
Definition late_prefix_line : bytes :=
  "remote 127.0.0.1 " +++ "L " +++ "10/15/2022 - 18:30:30" +++ ": " +++
  "hello".

Definition get5_payload : bytes :=
  "get5_event: {" +++ quoted "matchid" +++ ":" +++ quoted "1" +++ "," +++
  quoted "params" +++ ":oops," +++ quoted "event" +++ ":" +++
  quoted "map_end" +++ "}".

Definition get5_captures : list bytes :=
  [ get5_payload; []; of_string "1"; of_string "oops"; of_string "map_end" ].

Definition rcon_payload : bytes :=
  "rcon from " +++ quoted "1.2.3.4:99999999999999999999" +++ ": command " +++
  quoted "status".

Definition rcon_captures : list bytes :=
  [ rcon_payload; of_string "1.2.3.4"; of_string "99999999999999999999";
    of_string "status" ].

(** One payload for each pattern of the table, in the order of the
    table. *)
Definition A_CT : bytes := quoted "A<1><STEAM_1:0:1><CT>".
Definition B_T : bytes := quoted "B<2><STEAM_1:0:2><TERRORIST>".

Definition own_payloads : list bytes :=
  [ "server_message: " +++ quoted "restart";
    of_string "Starting Freeze period";
    "World triggered " +++ quoted "Match_Start" +++ " on " +++
      quoted "de_dust2";
    "World triggered " +++ quoted "Round_Start";
    "World triggered " +++ quoted "Restart_Round_(1_second)";
    "World triggered " +++ quoted "Round_End";
    "World triggered " +++ quoted "Game_Commencing";
    "Team " +++ quoted "CT" +++ " scored " +++ quoted "7" +++ " with " +++
      quoted "4" +++ " players";
    "Team " +++ quoted "CT" +++ " triggered " +++
      quoted "SFUI_Notice_Bomb_Defused" +++ " (CT " +++ quoted "1" +++
      ") (T " +++ quoted "0" +++ ")";
    quoted "A<1><STEAM_1:0:1><>" +++ " connected, address " +++
      quoted "1.2.3.4:27005";
    A_CT +++ " disconnected (reason " +++ quoted "Disconnect" +++ ")";
    quoted "A<1><STEAM_1:0:1><>" +++ " entered the game";
    "Banid: " +++ quoted "A<1><STEAM_1:0:1><>" +++ " was banned " +++
      quoted "for 30.00 minutes" +++ " by " +++ quoted "Console";
    quoted "A<1><STEAM_1:0:1>" +++
      " switched from team <Unassigned> to <CT>";
    A_CT +++ " say " +++ quoted "hello";
    A_CT +++ " purchased " +++ quoted "ak47";
    A_CT +++ " [1 -2 3] killed " +++ B_T +++ " [4 5 6] with " +++
      quoted "ak47" +++ " (headshot)";
    A_CT +++ " assisted killing " +++ B_T;
    A_CT +++ " [1 -2 3] attacked " +++ B_T +++ " [4 5 6] with " +++
      quoted "ak47" +++ " (damage " +++ quoted "27" +++ ") (damage_armor " +++
      quoted "3" +++ ") (health " +++ quoted "73" +++ ") (armor " +++
      quoted "96" +++ ") (hitgroup " +++ quoted "chest" +++ ")";
    A_CT +++ " [1 -2 3] was killed by the bomb.";
    A_CT +++ " [1 -2 3] committed suicide with " +++ quoted "world";
    A_CT +++ " picked up " +++ quoted "knife";
    A_CT +++ " dropped " +++ quoted "knife";
    A_CT +++ " money change 800+300 = $1100 (tracked)";
    A_CT +++ " triggered " +++ quoted "Got_The_Bomb";
    A_CT +++ " triggered " +++ quoted "Planted_The_Bomb";
    A_CT +++ " triggered " +++ quoted "Dropped_The_Bomb";
    A_CT +++ " triggered " +++ quoted "Begin_Bomb_Defuse_With_Kit";
    A_CT +++ " triggered " +++ quoted "Defused_The_Bomb";
    A_CT +++ " threw smokegrenade [1 -2 3]";
    A_CT +++ " blinded for 2.55 by " +++ B_T +++
      " from flashbang entindex 163";
    of_string ("Molotov projectile spawned at 1.000000 -2.000000 3.000000, "
               ++ "velocity 4.000000 5.000000 -6.000000");
    of_string "Game Over: competitive mg_active de_dust2 score 16:9 after 43 min";
    "server_cvar: " +++ quoted "mp_freezetime" +++ " " +++ quoted "15";
    "get5_event: {" +++ quoted "matchid" +++ ":" +++ quoted "1" +++ "," +++
      quoted "params" +++ ":{}," +++ quoted "event" +++ ":" +++
      quoted "going_live" +++ "}";
    "rcon from " +++ quoted "1.2.3.4:5" +++ ": command " +++ quoted "status";
    A_CT +++ " [1 -2 3] killed other " +++ quoted "chicken<5>" +++
      " [4 5 6] with " +++ quoted "knife" ].

(** The pattern at position [i] of the table is the only one that matches
    [payload]. *)
Definition alone (i : nat) (payload : bytes) : bool :=
  forallb (fun j => Bool.eqb (MatchString (nth j pattern_keys (Lit [])) payload)
                             (j =? i))
          (List.seq 0 (length pattern_keys)).

(** * Further definitions *)

(** The name of the struct type of a message. *)
Definition struct_name (m : Message) : bytes :=
  match m with
  | ServerMessage _ _ => "ServerMessage"
  | FreezTimeStart _ => "FreezTimeStart"
  | WorldMatchStart _ _ => "WorldMatchStart"
  | WorldRoundStart _ => "WorldRoundStart"
  | WorldRoundRestart _ _ => "WorldRoundRestart"
  | WorldRoundEnd _ => "WorldRoundEnd"
  | WorldGameCommencing _ => "WorldGameCommencing"
  | TeamScored _ _ _ _ => "TeamScored"
  | TeamNotice _ _ _ _ _ => "TeamNotice"
  | PlayerConnected _ _ _ => "PlayerConnected"
  | PlayerDisconnected _ _ _ => "PlayerDisconnected"
  | PlayerEntered _ _ => "PlayerEntered"
  | PlayerBanned _ _ _ _ => "PlayerBanned"
  | PlayerSwitched _ _ _ _ => "PlayerSwitched"
  | PlayerSay _ _ _ _ => "PlayerSay"
  | PlayerPurchase _ _ _ => "PlayerPurchase"
  | PlayerKill _ _ _ _ _ _ _ _ => "PlayerKill"
  | PlayerKillAssist _ _ _ => "PlayerKillAssist"
  | PlayerAttack _ _ _ _ _ _ _ _ _ _ _ => "PlayerAttack"
  | PlayerKilledBomb _ _ _ => "PlayerKilledBomb"
  | PlayerKilledSuicide _ _ _ _ => "PlayerKilledSuicide"
  | PlayerPickedUp _ _ _ => "PlayerPickedUp"
  | PlayerDropped _ _ _ => "PlayerDropped"
  | PlayerMoneyChange _ _ _ _ => "PlayerMoneyChange"
  | PlayerBombGot _ _ => "PlayerBombGot"
  | PlayerBombPlanted _ _ => "PlayerBombPlanted"
  | PlayerBombDropped _ _ => "PlayerBombDropped"
  | PlayerBombBeginDefuse _ _ _ => "PlayerBombBeginDefuse"
  | PlayerBombDefused _ _ => "PlayerBombDefused"
  | PlayerThrew _ _ _ _ _ => "PlayerThrew"
  | PlayerBlinded _ _ _ _ _ => "PlayerBlinded"
  | ProjectileSpawned _ _ _ => "ProjectileSpawned"
  | GameOver _ _ _ _ _ _ _ => "GameOver"
  | ServerCvar _ _ _ => "ServerCvar"
  | Get5Event _ _ _ _ => "Get5Event"
  | Rcon _ _ _ _ => "Rcon"
  | PlayerKillOther _ _ _ _ _ _ _ => "PlayerKillOther"
  | Unknown _ _ => "Unknown"
  end.

(** An extractor tags its messages with the name of their type, and gives
    them the time it was given. *)
Definition tagged (e : regex * MessageFunc) : Prop :=
  forall ti r m,
    snd e ti r = Some m -> GetType m = struct_name m /\ GetTime m = ti.

(** A time of the calendar: a year of four digits, a month, a day of that
    month, and a time of the day. *)
Definition on_calendar (t : time.Time) : Prop :=
  (0 <= time.Year t <= 9999 /\
   1 <= time.Month t <= 12 /\
   1 <= time.Day t <= time.daysIn (time.Month t) (time.Year t) /\
   time.Day t <= 31 /\
   0 <= time.Hour t <= 23 /\
   0 <= time.Minute t <= 59 /\
   0 <= time.Second t <= 59)%Z.

(** The players that a message holds. *)
Definition players_of (m : Message) : list Player :=
  match m with
  | PlayerConnected _ p _ | PlayerDisconnected _ p _ | PlayerEntered _ p
  | PlayerBanned _ p _ _ | PlayerSwitched _ p _ _ | PlayerSay _ p _ _
  | PlayerPurchase _ p _ | PlayerKilledBomb _ p _
  | PlayerKilledSuicide _ p _ _ | PlayerPickedUp _ p _
  | PlayerDropped _ p _ | PlayerMoneyChange _ p _ _ | PlayerBombGot _ p
  | PlayerBombPlanted _ p | PlayerBombDropped _ p
  | PlayerBombBeginDefuse _ p _ | PlayerBombDefused _ p
  | PlayerThrew _ p _ _ _ | PlayerKillOther _ p _ _ _ _ _ => [p]
  | PlayerKill _ a _ v _ _ _ _ | PlayerKillAssist _ a v
  | PlayerAttack _ a _ v _ _ _ _ _ _ _ | PlayerBlinded _ a v _ _ => [a; v]
  | _ => []
  end.

(** A player as the table can produce it: a name and a Steam id that are
    not empty, an id that is not negative, and one of four sides. *)
Definition good_player (p : Player) : Prop :=
  Name p <> [] /\ (0 <= ID p <= maxInt)%Z /\ SteamID p <> [] /\
  In (Side p) [of_string "TERRORIST"; of_string "CT";
               of_string "Unassigned"; []].

Definition players_ok (e : regex * MessageFunc) : Prop :=
  forall ti payload r m,
    FindStringSubmatch (fst e) payload = Some r ->
    snd e ti r = Some m ->
    Forall good_player (players_of m).

(** For each entry of the table, in its order, two numbers of captures:
    with fewer than the first the extractor panics, with at least the
    second it does not.  They differ for the rcon extractor only, which
    reads its last capture only when the port is a number. *)
Definition capture_bounds : list (nat * nat) :=
  [ (2, 2); (0, 0); (2, 2); (0, 0); (2, 2); (0, 0); (0, 0); (4, 4); (5, 5);
    (5, 5); (6, 6); (4, 4); (6, 6); (6, 6); (7, 7); (6, 6); (18, 18); (9, 9);
    (21, 21); (8, 8); (9, 9); (6, 6); (6, 6); (10, 10); (5, 5); (5, 5);
    (5, 5); (6, 6); (5, 5); (11, 11); (11, 11); (7, 7); (7, 7); (3, 3);
    (5, 5); (3, 4); (14, 14) ].

Definition bounded (e : regex * MessageFunc) (b : nat * nat) : Prop :=
  snd b <= S (ngroups (fst e)) /\
  forall ti r,
    (length r < fst b -> snd e ti r = None) /\
    (snd b <= length r -> snd e ti r <> None).

(** Sample data for the properties of the extractors. *)
Definition say_captures : list bytes :=
  [ quoting_payload; of_string "Bob"; of_string "1"; of_string "STEAM_1:0:1";
    of_string "CT"; []; of_string "Starting Freeze period" ].

Definition money_payload : bytes :=
  quoted "A<1><STEAM_1:0:1><CT>" +++
  " money change 800+300 = $1100 (tracked) (purchase: weapon_ak47)".

Definition money_captures : list bytes :=
  [ money_payload; of_string "A"; of_string "1"; of_string "STEAM_1:0:1";
    of_string "CT"; of_string "800"; of_string "300"; of_string "1100";
    of_string " (purchase: weapon_ak47)"; of_string "weapon_ak47" ].

Definition threw_payload : bytes :=
  quoted "A<1><STEAM_1:0:1><CT>" +++
  " threw flashbang [1 -2 3] flashbang entindex 42)".

Definition threw_captures : list bytes :=
  [ threw_payload; of_string "A"; of_string "1"; of_string "STEAM_1:0:1";
    of_string "CT"; of_string "flashbang"; of_string "1"; of_string "-2";
    of_string "3"; of_string " flashbang entindex 42"; of_string "42" ].

Definition rcon_status_payload : bytes :=
  "rcon from " +++ quoted "1.2.3.4:27015" +++ ": command " +++
  quoted "status".

Definition rcon_status_captures : list bytes :=
  [ rcon_status_payload; of_string "1.2.3.4"; of_string "27015";
    of_string "status" ].

(** A table of three entries, of which the second and the third match
    the payload of [quoting_line]. *)
Definition round_start_entry : regex * MessageFunc :=
  (WorldRoundStartPattern, NewWorldRoundStart).
Definition freeze_entry : regex * MessageFunc :=
  (FreezTimeStartPattern, NewFreezTimeStart).
Definition say_entry : regex * MessageFunc :=
  (PlayerSayPattern, NewPlayerSay).

Definition kill_line : bytes := "L 10/15/2022 - 18:30:30: " +++ kill_payload.
(** * Properties *)

(** ** Soundness of the matcher *)

#[local] Hint Constructors matches : core.

Lemma strip_app (p rest : bytes) : strip p (p ++ rest) = Some rest.
Proof.
  induction p as [|x p IH]; simpl; auto.
  now rewrite Ascii.eqb_refl.
Qed.

Lemma strip_Some (p s rest : bytes) :
  strip p s = Some rest -> s = p ++ rest.
Proof.
  revert s. induction p as [|x p IH]; simpl; intros s H.
  - now inversion H.
  - destruct s as [|y s]; [discriminate|].
    destruct (Ascii.eqb x y) eqn:E; [|discriminate].
    apply Ascii.eqb_eq in E. subst y. f_equal. now apply IH.
Qed.

Lemma bytes_eqb_eq (a b : bytes) : bytes_eqb a b = true <-> a = b.
Proof.
  revert b. induction a as [|x a IH]; destruct b as [|y b]; simpl;
    try (split; [discriminate | congruence]); try tauto.
  rewrite andb_true_iff, Ascii.eqb_eq, IH. split.
  - intros [-> ->]. reflexivity.
  - intros H. inversion H. auto.
Qed.

Lemma set_cap_length n w (c : caps) : length (set_cap n w c) = length c.
Proof.
  revert n. induction c as [|h t IH]; intros [|n]; simpl; auto.
Qed.

Lemma star_run_sound p s c k res :
  star_run p s c k = Some res ->
  exists w rest,
    s = w ++ rest /\ Forall (fun x => p x = true) w /\
    k w rest c = Some res.
Proof.
  revert k. induction s as [|x s IH]; simpl; intros k H.
  - exists [], []. auto.
  - destruct (p x) eqn:Px.
    + destruct (star_run p s c (fun w rest c' => k (x :: w) rest c'))
        eqn:E.
      * inversion H; subst. apply IH in E.
        destruct E as (w & rest & -> & Hw & Hk).
        exists (x :: w), rest. auto.
      * exists [], (x :: s). auto.
    + exists [], (x :: s). auto.
Qed.

Lemma run_sound r : forall s c k res,
  run r s c k = Some res ->
  exists w rest c',
    s = w ++ rest /\ matches r w c c' /\ k w rest c' = Some res.
Proof.
  induction r as [l|p|r1 IH1 r2 IH2|r1 IH1 r2 IH2|r1 IH1|p|n r1 IH1];
    simpl; intros s c k res H.
  - destruct (strip l s) as [rest|] eqn:E; [|discriminate].
    apply strip_Some in E. exists l, rest, c.
    repeat split; auto.
  - destruct s as [|x rest]; [discriminate|].
    destruct (p x) eqn:Px; [|discriminate].
    exists [x], rest, c. repeat split; auto.
  - apply IH1 in H. destruct H as (w1 & s1 & c1 & -> & M1 & H).
    apply IH2 in H. destruct H as (w2 & s2 & c2 & -> & M2 & H).
    exists (w1 ++ w2), s2, c2. rewrite app_assoc.
    repeat split; eauto.
  - destruct (run r1 s c k) eqn:E.
    + inversion H; subst. apply IH1 in E.
      destruct E as (w & rest & c' & -> & M & Hk).
      exists w, rest, c'. repeat split; auto.
    + apply IH2 in H.
      destruct H as (w & rest & c' & -> & M & Hk).
      exists w, rest, c'. repeat split; auto.
  - destruct (run r1 s c k) eqn:E.
    + inversion H; subst. apply IH1 in E.
      destruct E as (w & rest & c' & -> & M & Hk).
      exists w, rest, c'. repeat split; auto.
    + exists [], s, c. repeat split; auto.
  - apply star_run_sound in H. destruct H as (w & rest & -> & Hw & Hk).
    exists w, rest, c. repeat split; auto.
  - apply IH1 in H. destruct H as (w & rest & c' & -> & M & Hk).
    exists w, rest, (set_cap n w c'). repeat split; auto.
Qed.

Lemma matches_length r w c c' : matches r w c c' -> length c' = length c.
Proof.
  induction 1; auto; try congruence.
  now rewrite set_cap_length.
Qed.

Lemma match_at_sound r s res :
  match_at r s = Some res ->
  exists w rest c',
    s = w ++ rest /\ matches r w (no_caps r) c' /\ res = set_cap 0 w c'.
Proof.
  unfold match_at. intros H. apply run_sound in H.
  destruct H as (w & rest & c' & -> & M & Hk).
  inversion Hk. exists w, rest, c'. auto.
Qed.

(** A successful search found a match of the pattern somewhere in the
    text; group 0 holds the text of the match. *)
Lemma FindStringSubmatch_sound r s res :
  FindStringSubmatch r s = Some res ->
  exists pre w post c',
    s = pre ++ w ++ post /\ matches r w (no_caps r) c' /\
    res = set_cap 0 w c'.
Proof.
  induction s as [|x s IH]; simpl; intros H.
  - destruct (match_at r []) eqn:E; [|discriminate].
    inversion H; subst. apply match_at_sound in E.
    destruct E as (w & rest & c' & E & M & ->). exists [], w, rest, c'. auto.
  - destruct (match_at r (x :: s)) eqn:E.
    + inversion H; subst. apply match_at_sound in E.
      destruct E as (w & rest & c' & E & M & ->).
      exists [], w, rest, c'. auto.
    + apply IH in H. destruct H as (pre & w & post & c' & -> & M & ->).
      exists (x :: pre), w, post, c'. auto.
Qed.

(** The result of a search has one text per group, and one for the whole
    match. *)
Lemma FindStringSubmatch_length r s res :
  FindStringSubmatch r s = Some res -> length res = S (ngroups r).
Proof.
  intros H. apply FindStringSubmatch_sound in H.
  destruct H as (pre & w & post & c' & _ & M & ->).
  rewrite set_cap_length, (matches_length M). unfold no_caps.
  now rewrite repeat_length.
Qed.

(** ** Completeness of the matcher

    Conversely, the matcher finds a match whenever there is one. *)

Lemma star_run_complete p w rest c (k : cont) :
  Forall (fun x => p x = true) w ->
  k w rest c <> None ->
  star_run p (w ++ rest) c k <> None.
Proof.
  intros Hw. revert k. induction Hw as [|x w Hx _ IH]; intros k Hk.
  - destruct rest as [|y rest]; simpl; auto.
    destruct (p y); auto.
    destruct (star_run p rest c (fun w r c' => k (y :: w) r c'));
      [discriminate|auto].
  - simpl. rewrite Hx.
    specialize (IH (fun w r c' => k (x :: w) r c') Hk).
    destruct (star_run p (w ++ rest) c (fun w r c' => k (x :: w) r c'));
      [discriminate|contradiction].
Qed.

Lemma run_complete r w c c' :
  matches r w c c' ->
  forall rest (k : cont),
    k w rest c' <> None -> run r (w ++ rest) c k <> None.
Proof.
  induction 1 as [l c|p x c Px|r1 r2 w1 w2 c c1 c2 _ IH1 _ IH2
                 |r1 r2 w c c' _ IH|r1 r2 w c c' _ IH|r1 w c c' _ IH
                 |r1 c|p w c Hw|n r1 w c c' _ IH];
    intros rest k Hk; simpl.
  - now rewrite strip_app.
  - now rewrite Px.
  - rewrite <- app_assoc. apply IH1. apply IH2. exact Hk.
  - specialize (IH rest k Hk).
    destruct (run r1 (w ++ rest) c k); [discriminate|contradiction].
  - destruct (run r1 (w ++ rest) c k); [discriminate|auto].
  - specialize (IH rest k Hk).
    destruct (run r1 (w ++ rest) c k); [discriminate|contradiction].
  - destruct (run r1 rest c k); [discriminate|auto].
  - now apply star_run_complete.
  - apply IH. exact Hk.
Qed.

Lemma FindStringSubmatch_complete r pre w post c' :
  matches r w (no_caps r) c' ->
  FindStringSubmatch r (pre ++ w ++ post) <> None.
Proof.
  intros M.
  assert (H : match_at r (w ++ post) <> None)
    by (apply (run_complete M); discriminate).
  induction pre as [|x pre IH].
  - simpl. destruct (w ++ post); simpl;
      destruct (match_at r _); try discriminate; contradiction.
  - simpl. destruct (match_at r (x :: pre ++ w ++ post));
      [discriminate|exact IH].
Qed.

(** A pattern matches a text exactly when it matches some part of it. *)
Lemma MatchString_iff r s :
  MatchString r s = true <->
  exists pre w post c',
    s = pre ++ w ++ post /\ matches r w (no_caps r) c'.
Proof.
  unfold MatchString. split.
  - destruct (FindStringSubmatch r s) as [res|] eqn:E; [|discriminate].
    intros _. apply FindStringSubmatch_sound in E.
    destruct E as (pre & w & post & c' & E & M & _). now exists pre, w, post, c'.
  - intros (pre & w & post & c' & -> & M).
    pose proof (FindStringSubmatch_complete pre post M) as H.
    destruct (FindStringSubmatch r (pre ++ w ++ post));
      [reflexivity|contradiction].
Qed.

(** ** The line prefix: the pattern against the grammar *)

Lemma star_run_greedy p s c (k : cont) :
  (forall w rest c', k w rest c' <> None) ->
  star_run p s c k = k (take_while p s) (drop_while p s) c.
Proof.
  revert k. induction s as [|x s IH]; simpl; intros k Hk; auto.
  destruct (p x); auto.
  rewrite IH by (intros; apply Hk).
  destruct (k (x :: take_while p s) (drop_while p s) c) eqn:E; auto.
  now apply Hk in E.
Qed.

Ltac test_char :=
  match goal with
  | |- context [if digit ?x then _ else _] =>
      destruct (digit x); [|reflexivity]
  | |- context [if Ascii.eqb ?a ?x then _ else _] =>
      let E := fresh "E" in
      destruct (Ascii.eqb a x) eqn:E;
      [apply Ascii.eqb_eq in E; subst x|reflexivity]
  end.

Ltac eval_match := cbn -[Ascii.eqb digit star_run first_line].

(** At a given place, the pattern matches exactly when the prefix is
    there, and captures the stamp and the rest of the line. *)
Lemma match_at_LogLinePattern s :
  match_at LogLinePattern s = option_map prefix_captures (prefix_here s).
Proof.
  unfold match_at, prefix_here, LogLinePattern.
  cbn [seq times d2 d4 run no_caps ngroups repeat Nat.add].
  destruct (strip "L " s) as [s1|] eqn:E1; [|reflexivity].
  cbn [option_map].
  do 23 (destruct s1 as [|? s1];
         [eval_match; repeat test_char; reflexivity|]).
  eval_match. repeat test_char.
  rewrite star_run_greedy by discriminate.
  reflexivity.
Qed.

Lemma FindStringSubmatch_LogLinePattern line :
  FindStringSubmatch LogLinePattern line =
  option_map prefix_captures (first_prefix line).
Proof.
  induction line as [|x line IH]; cbn [FindStringSubmatch first_prefix];
    rewrite match_at_LogLinePattern.
  - destruct (prefix_here []); reflexivity.
  - destruct (prefix_here (x :: line)); auto.
Qed.

Lemma stamp_shape_length ts : stamp_shape ts = true -> length ts = 21.
Proof.
  intros H.
  do 21 (destruct ts as [|? ts]; [discriminate|]).
  destruct ts; [reflexivity|discriminate].
Qed.

(** The prefix at the start of a text, in terms of concatenation. *)
Lemma prefix_here_Some s ts rest :
  prefix_here s = Some (ts, rest) <->
  s = "L " +++ ts +++ ": " +++ rest /\ stamp_shape ts = true.
Proof.
  unfold prefix_here. split.
  - destruct (strip "L " s) as [s1|] eqn:E1; [|discriminate].
    destruct (stamp_shape (firstn 21 s1)) eqn:E2; [|discriminate].
    destruct (strip ": " (skipn 21 s1)) as [r|] eqn:E3; [|discriminate].
    intros H. inversion H; subst. split; auto.
    apply strip_Some in E1, E3. rewrite E1. f_equal.
    rewrite <- E3. symmetry. apply (firstn_skipn 21 s1).
  - intros [-> Hs]. rewrite strip_app.
    pose proof (stamp_shape_length _ Hs) as L.
    assert (F : firstn 21 (ts ++ ": " +++ rest) = ts).
    { rewrite firstn_app, L, Nat.sub_diag, <- L, firstn_all.
      simpl. apply app_nil_r. }
    assert (K : skipn 21 (ts ++ ": " +++ rest) = ": " +++ rest).
    { rewrite skipn_app, L, Nat.sub_diag, <- L, skipn_all. reflexivity. }
    rewrite F, K, Hs, strip_app. reflexivity.
Qed.

(** The first occurrence, in terms of concatenation: the prefix occurs
    after [pre], and nowhere before. *)
Lemma first_prefix_Some line ts rest :
  first_prefix line = Some (ts, rest) <->
  exists pre,
    line = pre ++ "L " +++ ts +++ ": " +++ rest /\ stamp_shape ts = true /\
    forall pre' ts' rest',
      line = pre' ++ "L " +++ ts' +++ ": " +++ rest' ->
      stamp_shape ts' = true -> length pre <= length pre'.
Proof.
  revert ts rest. induction line as [|x line IH]; intros ts rest.
  - simpl. split; [discriminate|].
    intros (pre & E & _). destruct pre; discriminate.
  - cbn [first_prefix].
    destruct (prefix_here (x :: line)) as [[ts0 rest0]|] eqn:E.
    + split.
      * intros H. inversion H; subst. apply prefix_here_Some in E.
        destruct E as [E Hs]. exists []. repeat split; auto.
        intros. simpl. lia.
      * intros (pre & E' & Hs' & Hmin).
        pose proof E as E0. apply prefix_here_Some in E0.
        destruct E0 as [E0 Hs0].
        specialize (Hmin [] ts0 rest0 E0 Hs0).
        destruct pre; [|simpl in Hmin; lia].
        assert (P : prefix_here (x :: line) = Some (ts, rest))
          by (apply prefix_here_Some; auto).
        congruence.
    + rewrite IH. split.
      * intros (pre & -> & Hs & Hmin). exists (x :: pre).
        repeat split; auto.
        intros pre' ts' rest' E' Hs'. destruct pre' as [|y pre'].
        -- assert (P : prefix_here (x :: pre ++ "L " +++ ts +++ ": " +++ rest)
                       = Some (ts', rest'))
             by (apply prefix_here_Some; auto).
           congruence.
        -- inversion E' as [[Ex El]]. simpl.
           apply le_n_S. apply (Hmin pre' ts' rest'); [exact El | exact Hs'].
      * intros (pre & E' & Hs & Hmin). destruct pre as [|y pre].
        -- assert (P : prefix_here (x :: line) = Some (ts, rest))
             by (apply prefix_here_Some; auto).
           congruence.
        -- inversion E' as [[Ex El]]. exists pre. repeat split; auto.
           intros pre' ts' rest' E'' Hs'.
           assert (Hle : length (y :: pre) <= length (x :: pre')).
           { apply (Hmin (x :: pre') ts' rest'); [|exact Hs'].
             rewrite El, E''. reflexivity. }
           simpl in Hle. lia.
Qed.

(** No occurrence at all. *)
Lemma first_prefix_None line :
  first_prefix line = None <->
  ~ exists pre ts rest,
      line = pre ++ "L " +++ ts +++ ": " +++ rest /\ stamp_shape ts = true.
Proof.
  induction line as [|x line IH].
  - simpl. split; auto. intros _ (pre & ts & rest & E & _).
    destruct pre; discriminate.
  - cbn [first_prefix].
    destruct (prefix_here (x :: line)) as [[ts0 rest0]|] eqn:E.
    + split; [discriminate|]. intros H. exfalso. apply H.
      apply prefix_here_Some in E. destruct E as [E Hs].
      exists [], ts0, rest0. auto.
    + rewrite IH. split; intros H (pre & ts & rest & E' & Hs); apply H.
      * destruct pre as [|y pre].
        -- assert (P : prefix_here (x :: line) = Some (ts, rest))
             by (apply prefix_here_Some; auto).
           congruence.
        -- inversion E'. exists pre, ts, rest. auto.
      * exists (x :: pre), ts, rest. subst line. auto.
Qed.

Lemma take_while_all p s :
  Forall (fun x => p x = true) s -> take_while p s = s.
Proof.
  induction 1 as [|x s Hx _ IH]; simpl; auto. now rewrite Hx, IH.
Qed.

(** A text without a newline is a single line. *)
Lemma first_line_no_newline s : ~ In nl s -> first_line s = s.
Proof.
  intros H. apply take_while_all. apply Forall_forall. intros x Hx.
  unfold dot. destruct (Ascii.eqb x nl) eqn:E; auto.
  apply Ascii.eqb_eq in E. subst x. contradiction.
Qed.

(** ** The time of a stamp *)

(** On a stamp, [time.Parse] gives the date and time that the stamp
    denotes, and fails exactly when the stamp denotes none. *)
Lemma time_Parse_stamp ts :
  stamp_shape ts = true -> time.Parse ts = calendar ts.
Proof.
  intros H.
  do 21 (destruct ts as [|? ts]; [discriminate|]).
  destruct ts; [|discriminate].
  cbn [stamp_shape] in H.
  repeat match goal with
         | E : (_ && _) = true |- _ => apply andb_true_iff in E; destruct E
         end.
  repeat match goal with
         | E : Ascii.eqb _ _ = true |- _ => apply Ascii.eqb_eq in E; subst
         end.
  unfold time.Parse, calendar, time.getnum, time.getyear, num2, num4.
  repeat (cbn -[digit digit_val Z.leb Z.ltb Z.add Z.mul time.daysIn];
          match goal with
          | E : digit ?x = true |- context [digit ?x] => rewrite E
          | |- context [Z.leb ?a ?b] => destruct (Z.leb a b)
          | |- context [Z.ltb ?a ?b] => destruct (Z.ltb a b)
          end);
    reflexivity.
Qed.

(** ** The extractors on the captures of their patterns *)

Create HintDb extractors.

#[local] Hint Unfold
  NewServerMessage NewFreezTimeStart NewWorldMatchStart NewWorldRoundStart
  NewWorldRoundRestart NewWorldRoundEnd NewWorldGameCommencing NewTeamScored
  NewTeamNotice NewPlayerConnected NewPlayerDisconnected NewPlayerEntered
  NewPlayerBanned NewPlayerSwitched NewPlayerSay NewPlayerPurchase
  NewPlayerKill NewPlayerKillAssist NewPlayerAttack NewPlayerKilledBomb
  NewPlayerKilledSuicide NewPlayerPickedUp NewPlayerDropped
  NewPlayerMoneyChange NewPlayerBombGot NewPlayerBombPlanted
  NewPlayerBombDropped NewPlayerBombBeginDefuse NewPlayerBombDefused
  NewPlayerThrew NewPlayerBlinded NewProjectileSpawned NewGameOver
  NewServerCvar NewGet5Event NewRconEvent NewPlayerKillOther NewUnknown
  : extractors.

(** A list of known length, as its elements. *)
Ltac explode r H :=
  simpl in H;
  repeat (destruct r as [|? r]; [discriminate H|]; simpl in H);
  destruct r; [clear H|discriminate H].

Ltac run_extractor :=
  autounfold with extractors; cbn [snd fst bind nth_error];
  repeat match goal with
         | |- context [match strconv.Atoi ?v with _ => _ end] =>
             destruct (strconv.Atoi v)
         | |- context [match Unmarshal ?v with _ => _ end] =>
             destruct (Unmarshal v)
         end;
  autounfold with extractors; cbn [bind nth_error].

Lemma DefaultPatterns_well_behaved {lib : Library} :
  Forall well_behaved DefaultPatterns.
Proof.
  unfold DefaultPatterns.
  repeat (apply Forall_cons; [|]); [..|apply Forall_nil];
    intros ti r H; cbn [fst snd] in *; explode r H; run_extractor;
    (eexists; split; [reflexivity|split; [reflexivity|discriminate]]).
Qed.

(** The groups of every pattern are numbered from 1 in the order of their
    opening parentheses, as the regexp package numbers them. *)
Lemma patterns_numbered :
  forallb (fun re => match numbered re 1 with
                     | Some n => n =? S (ngroups re)
                     | None => false
                     end)
          (LogLinePattern :: pattern_keys) = true.
Proof. reflexivity. Qed.

(** ** The parser in terms of the prefix grammar and of dispatch *)

Section ParserFacts.

Context {lib : Library}.

Lemma pattern_keys_DefaultPatterns : map fst DefaultPatterns = pattern_keys.
Proof. reflexivity. Qed.

Lemma range_patterns_dispatch ti whole ts payload order :
  match range_patterns ti [whole; ts; payload] order with
  | Some res => res
  | None => returned (NewUnknown ti (skipn 1 [whole; ts; payload]))
  end = dispatch ti payload order.
Proof.
  induction order as [|[re fn] order IH]; [reflexivity|].
  cbn [range_patterns dispatch nth_error].
  destruct (FindStringSubmatch re payload); auto.
Qed.

Lemma first_prefix_stamp line ts rest :
  first_prefix line = Some (ts, rest) -> stamp_shape ts = true.
Proof.
  intros H. apply first_prefix_Some in H. now destruct H as (_ & _ & H & _).
Qed.

(** [ParseWithPatterns] looks for the first occurrence of the prefix,
    reads the time of its stamp, and dispatches on the rest of the
    line. *)
Lemma ParseWithPatterns_spec line order :
  ParseWithPatterns line order =
  match first_prefix line with
  | None => Fails ErrorNoMatch
  | Some (ts, rest) =>
      match calendar ts with
      | None => Fails (ParseError ts)
      | Some ti => dispatch ti (first_line rest) order
      end
  end.
Proof.
  unfold ParseWithPatterns.
  rewrite FindStringSubmatch_LogLinePattern.
  destruct (first_prefix line) as [[ts rest]|] eqn:E; [|reflexivity].
  cbn [option_map prefix_captures nth_error].
  rewrite (time_Parse_stamp _ (first_prefix_stamp _ E)).
  destruct (calendar ts) as [ti|]; [|reflexivity].
  apply range_patterns_dispatch.
Qed.

Lemma dispatch_fire ti payload order :
  dispatch ti payload order =
  match filter (hit payload) order with
  | [] => Returns (Unknown (NewMeta ti "Unknown") payload)
  | e :: _ => fire ti payload e
  end.
Proof.
  induction order as [|[re fn] order IH]; [reflexivity|].
  cbn [dispatch filter]. unfold hit at 1, MatchString. cbn [fst].
  destruct (FindStringSubmatch re payload) as [r|] eqn:E; auto.
  unfold fire. cbn [fst snd]. now rewrite E.
Qed.

Lemma dispatch_no_match ti payload order :
  filter (hit payload) order = [] ->
  dispatch ti payload order =
  Returns (Unknown (NewMeta ti "Unknown") payload).
Proof. intros H. now rewrite dispatch_fire, H. Qed.

(** On a table of well-behaved entries dispatch returns a message, with
    the time it was given and a type tag. *)
Lemma dispatch_returns ti payload order :
  Forall well_behaved order ->
  exists m,
    dispatch ti payload order = Returns m /\
    GetTime m = ti /\ GetType m <> [].
Proof.
  induction 1 as [|[re fn] order Hwb _ IH]; cbn [dispatch].
  - eexists. split; [reflexivity|]. split; [reflexivity|discriminate].
  - destruct (FindStringSubmatch re payload) as [r|] eqn:E; auto.
    apply FindStringSubmatch_length in E.
    destruct (Hwb ti r E) as (m & Hm & Ht & Hty).
    cbn [snd] in Hm. rewrite Hm. exists m. auto.
Qed.

Lemma filter_map_fst (f : regex -> bool) (t : table) :
  map fst (filter (fun e => f (fst e)) t) = filter f (map fst t).
Proof.
  induction t as [|e t IH]; simpl; auto.
  destruct (f (fst e)); simpl; now rewrite IH.
Qed.

(** The entries of the table that match are as many as the patterns
    that match. *)
Lemma hits_matching payload :
  length (filter (hit payload) DefaultPatterns) = length (matching payload).
Proof.
  unfold matching. rewrite <- pattern_keys_DefaultPatterns.
  rewrite <- (filter_map_fst (fun re => MatchString re payload)).
  now rewrite length_map.
Qed.

End ParserFacts.

Lemma Permutation_filter {A : Type} (f : A -> bool) (l l' : list A) :
  Permutation l l' -> Permutation (filter f l) (filter f l').
Proof.
  induction 1 as [|x l l' _ IH|x y l|l l' l'' _ IH1 _ IH2]; simpl.
  - constructor.
  - destruct (f x); auto.
  - destruct (f x), (f y); auto. constructor.
  - eapply Permutation_trans; eauto.
Qed.

(** When at most one entry matches, the order of the table does not
    matter. *)
Lemma dispatch_order_irrelevant ti payload (t1 t2 : table) :
  Permutation t1 t2 ->
  length (filter (hit payload) t1) <= 1 ->
  dispatch ti payload t1 = dispatch ti payload t2.
Proof.
  intros P L. rewrite !dispatch_fire.
  apply (Permutation_filter (hit payload)) in P.
  destruct (filter (hit payload) t1) as [|e [|e' l]].
  - apply Permutation_nil in P. now rewrite P.
  - apply Permutation_length_1_inv in P. now rewrite P.
  - simpl in L. lia.
Qed.

(** ** Reading a match off its pattern *)

Ltac inv_step H := inversion H; subst; clear H.

Ltac inv_matches :=
  repeat match goal with
         | H : matches (Cat _ _) _ _ _ |- _ => inv_step H
         | H : matches (Lit _) _ _ _ |- _ => inv_step H
         | H : matches (Class _) _ _ _ |- _ => inv_step H
         | H : matches (Star _) _ _ _ |- _ => inv_step H
         | H : matches (Group _ _) _ _ _ |- _ => inv_step H
         | H : matches (Quest _) _ _ _ |- _ => inv_step H
         | H : matches (Alt _ _) _ _ _ |- _ => inv_step H
         end.

(** A repetition leaves the captures as they are. *)
Lemma matches_Plus p w c c' : matches (Plus p) w c c' -> c' = c.
Proof. unfold Plus. intros M. inv_matches. reflexivity. Qed.

(** A player sets four captures and has one of the two sides. *)
Lemma matches_player n w c c' :
  matches (player n) w c c' ->
  exists name id steam side,
    c' = set_cap (n + 3) side
           (set_cap (n + 2) steam (set_cap (n + 1) id (set_cap n name c))) /\
    w = dq ++ name ++ "<" +++ id ++ "><" +++ steam ++ "><" +++ side ++
        ">" +++ dq /\
    (side = "TERRORIST" \/ side = "CT").
Proof.
  unfold player, who, oneof, Plus. cbn [seq alts map]. intros M.
  inv_matches;
    match goal with
    | |- context [set_cap n (?a ++ ?b)] =>
        match goal with
        | |- context [set_cap (n + 1) (?d ++ ?e)] =>
            match goal with
            | |- context [set_cap (n + 2) (?f ++ ?g)] =>
                match goal with
                | |- context [set_cap (n + 3) ?s] =>
                    exists (a ++ b), (d ++ e), (f ++ g), s
                end
            end
        end
    end;
    (split; [reflexivity|]); (split; [|auto]);
    repeat (rewrite <- ?app_assoc; cbn [app of_string list_ascii_of_string dq]);
    reflexivity.
Qed.

(** A position sets three captures. *)
Lemma matches_position n w c c' :
  matches (position n) w c c' ->
  exists x y z,
    c' = set_cap (n + 2) z (set_cap (n + 1) y (set_cap n x c)).
Proof.
  unfold position, sint, Plus. cbn [seq]. intros M.
  inv_matches; eexists _, _, _; reflexivity.
Qed.

Lemma HasSuffix_refl s : HasSuffix s s.
Proof. now exists []. Qed.

Lemma HasSuffix_app a s x : HasSuffix s x -> HasSuffix (a ++ s) x.
Proof. intros [pre ->]. exists (a ++ pre). now rewrite app_assoc. Qed.

Lemma HasSuffix_cons (a : ascii) s x : HasSuffix s x -> HasSuffix (a :: s) x.
Proof. apply (HasSuffix_app [a]). Qed.

Ltac read_match :=
  repeat first
    [ progress inv_matches
    | match goal with
      | H : matches (player _) _ _ _ |- _ =>
          apply matches_player in H;
          destruct H as (? & ? & ? & ? & -> & -> & ?)
      | H : matches (position _) _ _ _ |- _ =>
          apply matches_position in H; destruct H as (? & ? & ? & ->)
      | H : matches (Plus _) _ _ _ |- _ => apply matches_Plus in H; subst
      end ].

Ltac ends_with :=
  repeat first
    [ apply HasSuffix_refl | apply HasSuffix_cons | apply HasSuffix_app ].

(** The two texts of the begin-defuse trigger cannot end the same text. *)
Lemma with_or_without_kit whole :
  HasSuffix whole ("Begin_Bomb_Defuse_Without_Kit" +++ dq) ->
  HasSuffix whole ("Begin_Bomb_Defuse_With_Kit" +++ dq) -> False.
Proof.
  intros [p ->] [q E].
  apply (f_equal (@rev ascii)) in E. rewrite !rev_app_distr in E.
  discriminate E.
Qed.

(** * The properties of the specification *)

(** C6: for every payload that the kill pattern matches, the PlayerKill
    event that the extractor builds has Headshot true exactly when the
    captured suffix (group 17) contains the word headshot, and Penetrated
    true exactly when it contains the word penetrated.  The capture is one
    of four texts: empty (no parenthesis, or none that the pattern
    accepts), and then both flags are false; headshot; penetrated; or
    headshot penetrated, and then both flags are true. *)
Theorem C6_kill_flags (ti : time.Time) (payload : bytes) (r : list bytes) :
  FindStringSubmatch PlayerKillPattern payload = Some r ->
  exists suffix attacker apos victim vpos weapon headshot penetrated,
    r.[17] = Some suffix /\
    NewPlayerKill ti r =
      Some (PlayerKill (NewMeta ti "PlayerKill") attacker apos victim vpos
              weapon headshot penetrated) /\
    headshot = strings.Contains suffix "headshot" /\
    penetrated = strings.Contains suffix "penetrated" /\
    In (suffix, headshot, penetrated)
       [ ([], false, false);
         (of_string "headshot", true, false);
         (of_string "penetrated", false, true);
         (of_string "headshot penetrated", true, true) ].
Proof.
  intros H. apply FindStringSubmatch_sound in H.
  destruct H as (before & w & after & c' & _ & M & ->).
  unfold PlayerKillPattern, oneof in M. cbn [seq alts map] in M.
  read_match;
    (eexists _, _, _, _, _, _, _, _;
     split; [reflexivity|]; split; [reflexivity|];
     split; [reflexivity|]; split; [reflexivity|];
     cbn; auto 6).
Qed.

Lemma C6_kill_flags_witness :
  FindStringSubmatch PlayerKillPattern kill_payload = Some kill_captures /\
  exists attacker apos victim vpos weapon,
    NewPlayerKill sample_time kill_captures =
      Some (PlayerKill (NewMeta sample_time "PlayerKill") attacker apos
              victim vpos weapon true true).
Proof.
  assert (H : FindStringSubmatch PlayerKillPattern kill_payload
              = Some kill_captures) by (vm_compute; reflexivity).
  split; [exact H|].
  destruct (@C6_kill_flags sample_time kill_payload kill_captures H)
    as (s & a & ap & v & vp & wp & hs & pen & Hs & E & Hh & Hp & _).
  inversion Hs; subst s. exists a, ap, v, vp, wp.
  rewrite E, Hh, Hp. reflexivity.
Defined.

(** C7: for every payload that the begin-defuse pattern matches, the
    extractor builds a PlayerBombBeginDefuse event, and the matched text
    ends either with Begin_Bomb_Defuse_Without_Kit and a quote, and then
    Kit is false, or with Begin_Bomb_Defuse_With_Kit and a quote, and then
    Kit is true (group 5 holds the text out in the first case and is empty
    in the second). *)
Theorem C7_begin_defuse_kit (ti : time.Time) (payload : bytes)
    (r : list bytes) :
  FindStringSubmatch PlayerBombBeginDefusePattern payload = Some r ->
  exists before whole after pl kit,
    payload = before ++ whole ++ after /\
    r.[0] = Some whole /\
    NewPlayerBombBeginDefuse ti r =
      Some (PlayerBombBeginDefuse (NewMeta ti "PlayerBombBeginDefuse")
              pl kit) /\
    (HasSuffix whole ("Begin_Bomb_Defuse_Without_Kit" +++ dq) ->
     kit = false) /\
    (HasSuffix whole ("Begin_Bomb_Defuse_With_Kit" +++ dq) -> kit = true) /\
    (HasSuffix whole ("Begin_Bomb_Defuse_Without_Kit" +++ dq) \/
     HasSuffix whole ("Begin_Bomb_Defuse_With_Kit" +++ dq)).
Proof.
  intros H. apply FindStringSubmatch_sound in H.
  destruct H as (before & w & after & c' & E & M & ->).
  unfold PlayerBombBeginDefusePattern in M. cbn [seq] in M.
  read_match.
  - eexists before, _, after, _, false.
    split; [reflexivity|]. split; [reflexivity|]. split; [reflexivity|].
    match goal with
    | |- (HasSuffix ?w ?s -> _) /\ _ =>
        assert (S : HasSuffix w s) by (cbn; ends_with)
    end.
    split; [reflexivity|]. split; [|left; exact S].
    intros S'. exfalso. exact (with_or_without_kit S S').
  - eexists before, _, after, _, true.
    split; [reflexivity|]. split; [reflexivity|]. split; [reflexivity|].
    match goal with
    | |- _ /\ (HasSuffix ?w ?s -> _) /\ _ =>
        assert (S : HasSuffix w s) by (cbn; ends_with)
    end.
    split; [|split; [reflexivity|right; exact S]].
    intros S'. exfalso. exact (with_or_without_kit S' S).
Qed.

Lemma C7_begin_defuse_kit_witness :
  FindStringSubmatch PlayerBombBeginDefusePattern defuse_payload
    = Some defuse_captures /\
  exists pl,
    NewPlayerBombBeginDefuse sample_time defuse_captures =
      Some (PlayerBombBeginDefuse
              (NewMeta sample_time "PlayerBombBeginDefuse") pl false).
Proof.
  assert (H : FindStringSubmatch PlayerBombBeginDefusePattern defuse_payload
              = Some defuse_captures) by (vm_compute; reflexivity).
  split; [exact H|].
  destruct (@C7_begin_defuse_kit sample_time defuse_payload defuse_captures H)
    as (b & w & a & pl & kit & _ & Hw & E & Hout & _).
  inversion Hw; subst w. exists pl. rewrite E.
  rewrite Hout; [reflexivity|]. unfold defuse_payload. cbn. ends_with.
Defined.

Section Specification.

Context {lib : Library}.

Lemma first_prefix_here s found :
  prefix_here s = Some found -> first_prefix s = Some found.
Proof. intros H. destruct s; cbn [first_prefix]; now rewrite H. Qed.

(** Every order in which the table can be visited consists of
    well-behaved entries. *)
Lemma order_well_behaved order :
  Permutation DefaultPatterns order -> Forall well_behaved order.
Proof.
  intros P. eapply Permutation_Forall; [exact P|].
  apply DefaultPatterns_well_behaved.
Qed.

Lemma order_no_match payload order :
  Permutation DefaultPatterns order ->
  matching payload = [] ->
  filter (hit payload) order = [].
Proof.
  intros P Hm.
  assert (H : filter (hit payload) DefaultPatterns = []).
  { apply length_zero_iff_nil. now rewrite hits_matching, Hm. }
  apply (Permutation_filter (hit payload)) in P. rewrite H in P.
  now apply Permutation_nil in P.
Qed.

(** With a stamp that denotes a date and time at the first occurrence of
    the prefix, every call returns a message. *)
Lemma Parse_returns_message line ts rest ti res :
  first_prefix line = Some (ts, rest) ->
  calendar ts = Some ti ->
  Parse line res ->
  exists m, res = Returns m /\ GetTime m = ti /\ GetType m <> [].
Proof.
  intros Hf Hc (order & P & <-). rewrite ParseWithPatterns_spec, Hf, Hc.
  apply dispatch_returns, (order_well_behaved P).
Qed.

(** C1: a line that starts with the prefix, with a stamp [ts] that
    denotes the date and time [ti], followed by a payload without a
    newline that none of the patterns of the default table matches:
    whatever the order in which the table is visited, Parse returns an
    Unknown event with that time, the type tag Unknown, and the payload,
    byte for byte, as its Raw field. *)
Theorem C1_unmatched_payload_is_unknown
    (ts payload : bytes) (ti : time.Time) (res : outcome) :
  stamp_shape ts = true ->
  calendar ts = Some ti ->
  ~ In nl payload ->
  matching payload = [] ->
  Parse ("L " +++ ts +++ ": " +++ payload) res ->
  res = Returns (Unknown {| Time := ti; Type_ := "Unknown" |} payload).
Proof.
  intros Hs Hc Hn Hm (order & P & <-).
  rewrite ParseWithPatterns_spec.
  rewrite (first_prefix_here _ (proj2 (prefix_here_Some _ ts payload)
                                        (conj eq_refl Hs))).
  rewrite Hc, (first_line_no_newline _ Hn).
  apply dispatch_no_match. now apply order_no_match.
Qed.

(** C2: Parse returns an error exactly when the prefix does not occur in
    the line, and then the error is ErrorNoMatch, or when the stamp of
    its first occurrence denotes no date and time, and then the error is
    that of time.Parse; in every other case it returns a message (it
    neither fails nor panics). *)
Theorem C2_errors_come_from_the_prefix (line : bytes) (res : outcome) :
  Parse line res ->
  (first_prefix line = None -> res = Fails ErrorNoMatch) /\
  (forall ts rest,
      first_prefix line = Some (ts, rest) -> calendar ts = None ->
      res = Fails (ParseError ts)) /\
  (forall ts rest ti,
      first_prefix line = Some (ts, rest) -> calendar ts = Some ti ->
      exists m, res = Returns m) /\
  ((exists e, res = Fails e) <->
   first_prefix line = None \/
   exists ts rest, first_prefix line = Some (ts, rest) /\ calendar ts = None).
Proof.
  intros (order & P & <-). rewrite ParseWithPatterns_spec.
  destruct (first_prefix line) as [[ts rest]|].
  - destruct (calendar ts) as [ti|] eqn:Hc.
    + destruct (dispatch_returns ti (first_line rest)
                  (order_well_behaved P)) as (m & -> & _).
      repeat split; try discriminate.
      * intros ? ? E. inversion E; subst. congruence.
      * intros ? ? ? _ _. now exists m.
      * intros [e E]. discriminate E.
      * intros [E|(? & ? & E & E')]; [discriminate E|].
        inversion E; subst. congruence.
    + repeat split; try discriminate.
      * intros ? ? E _. now inversion E.
      * intros ? ? ? E E'. inversion E; subst. congruence.
      * intros _. right. now exists ts, rest.
      * intros _. now exists (ParseError ts).
  - repeat split; try discriminate; auto.
    intros _. now exists ErrorNoMatch.
Qed.

(** C8: every message that Parse returns has a type tag that is not
    empty, and its time is the date and time denoted by the stamp of the
    first occurrence of the prefix in the line. *)
Theorem C8_type_tag_and_time (line : bytes) (m : Message) :
  Parse line (Returns m) ->
  GetType m <> [] /\
  exists ts rest,
    first_prefix line = Some (ts, rest) /\ calendar ts = Some (GetTime m).
Proof.
  intros (order & P & E). rewrite ParseWithPatterns_spec in E.
  destruct (first_prefix line) as [[ts rest]|]; [|discriminate].
  destruct (calendar ts) as [ti|] eqn:Hc; [|discriminate].
  destruct (dispatch_returns ti (first_line rest) (order_well_behaved P))
    as (m' & E' & Ht & Hty).
  rewrite E' in E. inversion E; subst m'. split; [exact Hty|].
  exists ts, rest. now rewrite Ht.
Qed.

(** C10 (amended): the prefix is looked for anywhere in the line.  When
    it occurs after some leading text [pre], this is its first
    occurrence, and its stamp denotes a date and time, Parse returns a
    message with that time: the one that dispatching gives on the text
    after the prefix, up to the end of the line.  (When the stamp of the
    first occurrence denotes no date and time, Parse fails, even if a
    later occurrence would do.) *)
Theorem C10_prefix_found_anywhere
    (pre ts rest : bytes) (ti : time.Time) (res : outcome) :
  first_prefix (pre ++ "L " +++ ts +++ ": " +++ rest) = Some (ts, rest) ->
  calendar ts = Some ti ->
  Parse (pre ++ "L " +++ ts +++ ": " +++ rest) res ->
  (exists order,
      Permutation DefaultPatterns order /\
      res = dispatch ti (first_line rest) order) /\
  exists m, res = Returns m /\ GetTime m = ti.
Proof.
  intros Hf Hc (order & P & <-). rewrite ParseWithPatterns_spec, Hf, Hc.
  split; [now exists order|].
  destruct (dispatch_returns ti (first_line rest) (order_well_behaved P))
    as (m & -> & Ht & _).
  now exists m.
Qed.

(** C9 (amended): Parse keeps no state; its outcome depends on the line
    and on the order in which the call visits the table.  Whether it
    fails, and with which error, depends on the line alone.  When at most
    one pattern of the table matches the payload, two calls on the same
    line give the same outcome.  (When several patterns match, two calls
    can return different messages.) *)
Theorem C9_equal_outcomes (line : bytes) (res1 res2 : outcome) :
  Parse line res1 ->
  Parse line res2 ->
  (forall e, res1 = Fails e -> res2 = Fails e) /\
  ((forall ts rest,
       first_prefix line = Some (ts, rest) ->
       length (matching (first_line rest)) <= 1) ->
   res1 = res2).
Proof.
  intros (o1 & P1 & <-) (o2 & P2 & <-). rewrite !ParseWithPatterns_spec.
  destruct (first_prefix line) as [[ts rest]|]; [|auto].
  destruct (calendar ts) as [ti|]; [|auto]. split.
  - intros e E.
    destruct (dispatch_returns ti (first_line rest) (order_well_behaved P1))
      as (m & E' & _).
    rewrite E' in E. discriminate E.
  - intros H. specialize (H ts rest eq_refl).
    rewrite <- hits_matching in H.
    rewrite <- (dispatch_order_irrelevant ti _ P1 H).
    apply (dispatch_order_irrelevant ti _ P2 H).
Qed.

(** C4: a text that strconv.Atoi rejects, for its syntax or for its
    range, gives the integer zero, and a text that strconv.ParseFloat
    rejects gives the float zero; the conversions never fail, and every
    extractor of the table returns a message on the captures of its
    pattern, whatever the texts of its numeric fields are. *)
Theorem C4_numeric_failure_is_zero (v f : bytes) (e : strconv.NumError) :
  strconv.Atoi v = inr e ->
  ParseFloat32 f = None ->
  toInt v = 0%Z /\ toFloat32 f = float32_zero /\
  Forall well_behaved DefaultPatterns.
Proof.
  intros Hv Hf. unfold toInt, toFloat32. rewrite Hv, Hf.
  repeat split. apply DefaultPatterns_well_behaved.
Qed.

(** C5: when the get5 pattern matches and the params capture (group 3)
    does not decode, and when the rcon pattern matches and the port
    capture (group 2) is rejected by strconv.Atoi, the extractor returns
    an Unknown event (its Raw field is group 1 of the match); and Parse
    returns a message, not an error, on every line whose first prefix
    has a stamp that denotes a date and time. *)
Theorem C5_second_stage_fallbacks
    (ti : time.Time) (get5 rcon : bytes) (g r : list bytes)
    (params port : bytes) (e : strconv.NumError) :
  FindStringSubmatch Get5EventPattern get5 = Some g ->
  g.[3] = Some params ->
  Unmarshal params = None ->
  FindStringSubmatch RconEventPattern rcon = Some r ->
  r.[2] = Some port ->
  strconv.Atoi port = inr e ->
  (exists raw,
      g.[1] = Some raw /\
      NewGet5Event ti g = Some (Unknown (NewMeta ti "Unknown") raw)) /\
  (exists raw,
      r.[1] = Some raw /\
      NewRconEvent ti r = Some (Unknown (NewMeta ti "Unknown") raw)) /\
  (forall line ts rest res,
      first_prefix line = Some (ts, rest) -> calendar ts = Some ti ->
      Parse line res -> exists m, res = Returns m).
Proof.
  intros Hg Hg3 Hu Hr Hr2 Ha.
  apply FindStringSubmatch_length in Hg, Hr.
  split; [|split].
  - explode g Hg. cbn [nth_error] in Hg3. inversion Hg3; subst.
    eexists. split; [reflexivity|].
    unfold NewGet5Event. cbn [bind nth_error]. now rewrite Hu.
  - explode r Hr. cbn [nth_error] in Hr2. inversion Hr2; subst.
    eexists. split; [reflexivity|].
    unfold NewRconEvent. cbn [bind nth_error]. now rewrite Ha.
  - intros line ts rest res Hf Hc HP.
    destruct (Parse_returns_message Hf Hc HP) as (m & E & _).
    now exists m.
Qed.

End Specification.

(** C3 (amended): the patterns are matched as parts of the payload and are
    not exclusive: one payload can be matched by several of them.  What
    holds for the 37 patterns of the default table is that none is covered
    by the others: each has a payload that it matches and that no other
    pattern of the table matches. *)
Theorem C3_each_pattern_has_its_own_payload (i : nat) :
  i < length pattern_keys ->
  length pattern_keys = 37 /\
  exists payload,
    forall j, j < length pattern_keys ->
      (MatchString (nth j pattern_keys (Lit [])) payload = true <-> j = i).
Proof.
  intros Hi. split; [reflexivity|].
  assert (All : forallb (fun i => alone i (nth i own_payloads []))
                        (List.seq 0 (length pattern_keys)) = true)
    by (vm_compute; reflexivity).
  rewrite forallb_forall in All.
  assert (Hin : In i (List.seq 0 (length pattern_keys)))
    by (apply in_seq; lia).
  specialize (All i Hin). unfold alone in All. rewrite forallb_forall in All.
  exists (nth i own_payloads []). intros j Hj.
  assert (Hjn : In j (List.seq 0 (length pattern_keys)))
    by (apply in_seq; lia).
  specialize (All j Hjn). apply Bool.eqb_prop in All. rewrite All.
  apply Nat.eqb_eq.
Qed.

Lemma C3_each_pattern_has_its_own_payload_witness :
  0 < length pattern_keys /\
  exists payload,
    MatchString ServerMessagePattern payload = true /\
    MatchString PlayerSayPattern payload = false.
Proof.
  assert (H : 0 < length pattern_keys) by (cbn; lia).
  split; [exact H|].
  destruct (@C3_each_pattern_has_its_own_payload 0 H) as (_ & payload & Hp).
  exists payload. split.
  - apply (Hp 0 H). reflexivity.
  - assert (H14 : 14 < length pattern_keys) by (cbn; lia).
    destruct (MatchString PlayerSayPattern payload) eqn:E; [|reflexivity].
    apply (Hp 14 H14) in E. discriminate E.
Defined.

(** The examples below run the parser with the instance [rejecting]. *)
#[local] Existing Instance rejecting.

(** The end-to-end examples of the specification. *)
Example purchase_line :
  ParseWithPatterns
    ("L 10/15/2022 - 18:30:30: " +++ quoted "Player1<5><STEAM_1:1:111><CT>"
     +++ " purchased " +++ quoted "ak47")
    DefaultPatterns =
  Returns (PlayerPurchase (NewMeta sample_time "PlayerPurchase")
             {| Name := "Player1"; ID := 5%Z; SteamID := "STEAM_1:1:111";
                Side := "CT" |}
             "ak47").
Proof. vm_compute. reflexivity. Qed.

Example team_scored_line :
  ParseWithPatterns
    ("L 10/15/2022 - 18:31:00: Team " +++ quoted "CT" +++ " scored " +++
     quoted "7" +++ " with " +++ quoted "4" +++ " players")
    DefaultPatterns =
  Returns (TeamScored (NewMeta (time.Date 2022 10 15 18 31 0) "TeamScored")
             "CT" 7%Z 4%Z).
Proof. vm_compute. reflexivity. Qed.

Example freeform_line :
  ParseWithPatterns
    "L 10/15/2022 - 18:32:00: some totally unrecognized freeform text"
    DefaultPatterns =
  Returns (Unknown (NewMeta unknown_time "Unknown") unknown_payload).
Proof. vm_compute. reflexivity. Qed.

Example line_without_prefix :
  ParseWithPatterns "some totally unrecognized freeform text"
    DefaultPatterns = Fails ErrorNoMatch.
Proof. vm_compute. reflexivity. Qed.

Example month_13 :
  ParseWithPatterns "L 13/15/2022 - 18:32:00: text" DefaultPatterns =
  Fails (ParseError "13/15/2022 - 18:32:00").
Proof. vm_compute. reflexivity. Qed.

Example february_29 :
  calendar "02/29/2024 - 00:00:00" = Some (time.Date 2024 2 29 0 0 0) /\
  calendar "02/29/2023 - 00:00:00" = None.
Proof. split; reflexivity. Qed.

Example money_change_without_purchase :
  ParseWithPatterns
    ("L 10/15/2022 - 18:30:30: " +++ A_CT +++
     " money change 800+300 = $1100 (tracked)")
    DefaultPatterns =
  Returns (PlayerMoneyChange (NewMeta sample_time "PlayerMoneyChange")
             {| Name := "A"; ID := 1%Z; SteamID := "STEAM_1:0:1";
                Side := "CT" |}
             (mkEquation 800%Z 300%Z 1100%Z) []).
Proof. vm_compute. reflexivity. Qed.

Example toInt_values :
  toInt "42" = 42%Z /\ toInt "-5" = (-5)%Z /\ toInt "+7" = 7%Z /\
  toInt "9223372036854775807" = 9223372036854775807%Z /\
  toInt "9223372036854775808" = 0%Z /\
  toInt [] = 0%Z /\ toInt "-" = 0%Z /\ toInt "12a" = 0%Z /\
  toInt "1.5" = 0%Z.
Proof. vm_compute. repeat split. Qed.

(** A parenthesis that the kill pattern does not know leaves group 17
    empty, and both flags false. *)
Example kill_with_other_suffix :
  option_map (fun r => r.[17])
    (FindStringSubmatch PlayerKillPattern
       (A_CT +++ " [1 -2 3] killed " +++ B_T +++ " [4 5 6] with " +++
        quoted "ak47" +++ " (headshot throughsmoke)"))
  = Some (Some []).
Proof. vm_compute. reflexivity. Qed.

(** C3, as stated, fails: a chat line that quotes the text of the
    freeze-period message is matched by two patterns of the table. *)
Lemma C3_counterexample :
  MatchString FreezTimeStartPattern quoting_payload = true /\
  MatchString PlayerSayPattern quoting_payload = true /\
  ~ length (matching quoting_payload) <= 1.
Proof.
  split; [vm_compute; reflexivity|]. split; [vm_compute; reflexivity|].
  assert (E : length (matching quoting_payload) = 2)
    by (vm_compute; reflexivity).
  rewrite E. lia.
Qed.

(** C9, as stated, fails: on a chat line that quotes the text of the
    freeze-period message, a call that visits the table in the order of
    the source returns a FreezTimeStart, and a call that visits it in the
    reverse order returns a PlayerSay. *)
Lemma C9_counterexample :
  Parse (lib := rejecting) quoting_line
    (Returns (FreezTimeStart (NewMeta sample_time "FreezTimeStart"))) /\
  Parse (lib := rejecting) quoting_line
    (Returns (PlayerSay (NewMeta sample_time "PlayerSay")
                {| Name := "Bob"; ID := 1%Z; SteamID := "STEAM_1:0:1";
                   Side := "CT" |}
                "Starting Freeze period" false)) /\
  Returns (FreezTimeStart (NewMeta sample_time "FreezTimeStart")) <>
  Returns (PlayerSay (NewMeta sample_time "PlayerSay")
             {| Name := "Bob"; ID := 1%Z; SteamID := "STEAM_1:0:1";
                Side := "CT" |}
             "Starting Freeze period" false).
Proof.
  split; [|split].
  - exists (DefaultPatterns (lib := rejecting)). split; [apply Permutation_refl|].
    vm_compute. reflexivity.
  - exists (rev (DefaultPatterns (lib := rejecting))). split; [apply Permutation_rev|].
    vm_compute. reflexivity.
  - discriminate.
Qed.

(** C10, as stated, fails: this line contains the prefix, even with a
    stamp that denotes a date and time, and yet every call of Parse fails
    on it, because the first place at which the prefix occurs has a stamp
    that denotes none. *)
Lemma C10_counterexample :
  twice_stamped_line =
    "L 99/99/9999 - 99:99:99: " +++ "L " +++ "10/15/2022 - 18:30:30" +++
    ": " +++ "hello" /\
  stamp_shape "10/15/2022 - 18:30:30" = true /\
  calendar "10/15/2022 - 18:30:30" = Some sample_time /\
  forall res,
    Parse (lib := rejecting) twice_stamped_line res ->
    res = Fails (ParseError "99/99/9999 - 99:99:99").
Proof.
  repeat split.
  intros res (order & P & <-). rewrite ParseWithPatterns_spec.
  reflexivity.
Qed.

Lemma not_in_newline (s : bytes) :
  forallb dot s = true -> ~ In nl s.
Proof.
  intros H Hin. rewrite forallb_forall in H. apply H in Hin.
  discriminate Hin.
Qed.

Lemma C1_unmatched_payload_is_unknown_witness :
  stamp_shape unknown_stamp = true /\
  calendar unknown_stamp = Some unknown_time /\
  ~ In nl unknown_payload /\
  matching unknown_payload = [] /\
  ParseWithPatterns ("L " +++ unknown_stamp +++ ": " +++ unknown_payload)
    (DefaultPatterns (lib := rejecting)) =
  Returns (Unknown {| Time := unknown_time; Type_ := "Unknown" |}
             unknown_payload).
Proof.
  assert (H1 : stamp_shape unknown_stamp = true) by reflexivity.
  assert (H2 : calendar unknown_stamp = Some unknown_time) by reflexivity.
  assert (H3 : ~ In nl unknown_payload)
    by (apply not_in_newline; reflexivity).
  assert (H4 : matching unknown_payload = []) by (vm_compute; reflexivity).
  repeat (split; [assumption|]).
  apply (@C1_unmatched_payload_is_unknown rejecting unknown_stamp
           unknown_payload unknown_time _ H1 H2 H3 H4).
  exists (DefaultPatterns (lib := rejecting)). split; [apply Permutation_refl|reflexivity].
Defined.

Lemma C2_errors_come_from_the_prefix_witness :
  Parse (lib := rejecting) twice_stamped_line
    (ParseWithPatterns twice_stamped_line DefaultPatterns) /\
  ParseWithPatterns twice_stamped_line (DefaultPatterns (lib := rejecting)) =
  Fails (ParseError "99/99/9999 - 99:99:99").
Proof.
  assert (H : Parse (lib := rejecting) twice_stamped_line
                (ParseWithPatterns twice_stamped_line DefaultPatterns)).
  { exists (DefaultPatterns (lib := rejecting)). split; [apply Permutation_refl|reflexivity]. }
  split; [exact H|].
  destruct (@C2_errors_come_from_the_prefix rejecting twice_stamped_line _ H)
    as (_ & H2 & _).
  apply (H2 _ (of_string "L 10/15/2022 - 18:30:30: hello")); reflexivity.
Defined.

Lemma C8_type_tag_and_time_witness :
  Parse (lib := rejecting) quoting_line
    (Returns (FreezTimeStart (NewMeta sample_time "FreezTimeStart"))) /\
  GetType (FreezTimeStart (NewMeta sample_time "FreezTimeStart")) <> [].
Proof.
  assert (H : Parse (lib := rejecting) quoting_line
                (Returns (FreezTimeStart
                            (NewMeta sample_time "FreezTimeStart")))).
  { exists (DefaultPatterns (lib := rejecting)). split; [apply Permutation_refl|].
    vm_compute. reflexivity. }
  split; [exact H|].
  exact (proj1 (@C8_type_tag_and_time rejecting quoting_line _ H)).
Defined.

Lemma C10_prefix_found_anywhere_witness :
  first_prefix late_prefix_line
    = Some (of_string "10/15/2022 - 18:30:30", of_string "hello") /\
  calendar "10/15/2022 - 18:30:30" = Some sample_time /\
  Parse (lib := rejecting) late_prefix_line
    (ParseWithPatterns late_prefix_line DefaultPatterns) /\
  exists m,
    ParseWithPatterns late_prefix_line (DefaultPatterns (lib := rejecting))
      = Returns m /\
    GetTime m = sample_time.
Proof.
  assert (H1 : first_prefix late_prefix_line
               = Some (of_string "10/15/2022 - 18:30:30", of_string "hello"))
    by (vm_compute; reflexivity).
  assert (H2 : calendar "10/15/2022 - 18:30:30" = Some sample_time)
    by reflexivity.
  assert (H3 : Parse (lib := rejecting) late_prefix_line
                 (ParseWithPatterns late_prefix_line DefaultPatterns)).
  { exists (DefaultPatterns (lib := rejecting)). split; [apply Permutation_refl|reflexivity]. }
  repeat (split; [assumption|]).
  exact (proj2 (@C10_prefix_found_anywhere rejecting
                  "remote 127.0.0.1 " "10/15/2022 - 18:30:30" "hello"
                  sample_time _ H1 H2 H3)).
Defined.

Lemma C9_equal_outcomes_witness :
  Parse (lib := rejecting) late_prefix_line
    (ParseWithPatterns late_prefix_line DefaultPatterns) /\
  Parse (lib := rejecting) late_prefix_line
    (ParseWithPatterns late_prefix_line (rev DefaultPatterns)) /\
  ParseWithPatterns late_prefix_line (DefaultPatterns (lib := rejecting)) =
  ParseWithPatterns late_prefix_line (rev DefaultPatterns).
Proof.
  assert (H1 : Parse (lib := rejecting) late_prefix_line
                 (ParseWithPatterns late_prefix_line DefaultPatterns)).
  { exists (DefaultPatterns (lib := rejecting)). split; [apply Permutation_refl|reflexivity]. }
  assert (H2 : Parse (lib := rejecting) late_prefix_line
                 (ParseWithPatterns late_prefix_line (rev DefaultPatterns))).
  { exists (rev (DefaultPatterns (lib := rejecting))). split; [apply Permutation_rev|reflexivity]. }
  repeat (split; [assumption|]).
  apply (proj2 (@C9_equal_outcomes rejecting late_prefix_line _ _ H1 H2)).
  intros ts rest E. vm_compute in E. inversion E; subst.
  apply Nat.leb_le. vm_compute. reflexivity.
Defined.

Lemma C4_numeric_failure_is_zero_witness :
  strconv.Atoi "99999999999999999999" = inr strconv.ErrRange /\
  ParseFloat32 (Library := rejecting) "1.2.3" = None /\
  toInt "99999999999999999999" = 0%Z /\
  toFloat32 (lib := rejecting) "1.2.3" = float32_zero.
Proof.
  assert (H1 : strconv.Atoi "99999999999999999999" = inr strconv.ErrRange)
    by (vm_compute; reflexivity).
  assert (H2 : ParseFloat32 (Library := rejecting) "1.2.3" = None)
    by reflexivity.
  repeat (split; [assumption|]).
  destruct (@C4_numeric_failure_is_zero rejecting _ _ _ H1 H2)
    as (Hi & Hf & _).
  split; assumption.
Defined.

Lemma C5_second_stage_fallbacks_witness :
  FindStringSubmatch Get5EventPattern get5_payload = Some get5_captures /\
  get5_captures.[3] = Some (of_string "oops") /\
  Unmarshal (Library := rejecting) "oops" = None /\
  FindStringSubmatch RconEventPattern rcon_payload = Some rcon_captures /\
  rcon_captures.[2] = Some (of_string "99999999999999999999") /\
  strconv.Atoi "99999999999999999999" = inr strconv.ErrRange /\
  NewGet5Event (lib := rejecting) sample_time get5_captures
    = Some (Unknown (NewMeta sample_time "Unknown") []) /\
  NewRconEvent sample_time rcon_captures
    = Some (Unknown (NewMeta sample_time "Unknown") "1.2.3.4").
Proof.
  assert (H1 : FindStringSubmatch Get5EventPattern get5_payload
               = Some get5_captures) by (vm_compute; reflexivity).
  assert (H2 : get5_captures.[3] = Some (of_string "oops")) by reflexivity.
  assert (H3 : Unmarshal (Library := rejecting) "oops" = None)
    by reflexivity.
  assert (H4 : FindStringSubmatch RconEventPattern rcon_payload
               = Some rcon_captures) by (vm_compute; reflexivity).
  assert (H5 : rcon_captures.[2] = Some (of_string "99999999999999999999"))
    by reflexivity.
  assert (H6 : strconv.Atoi "99999999999999999999" = inr strconv.ErrRange)
    by (vm_compute; reflexivity).
  repeat (split; [assumption|]).
  destruct (@C5_second_stage_fallbacks rejecting sample_time
              _ _ _ _ _ _ _ H1 H2 H3 H4 H5 H6)
    as ((raw1 & E1 & G) & (raw2 & E2 & R) & _).
  inversion E1; subst raw1. inversion E2; subst raw2.
  split; assumption.
Defined.

(** ** The parser on any table *)

Lemma dispatch_never_fails ti payload (t : table) e :
  dispatch ti payload t <> Fails e.
Proof.
  induction t as [|[re fn] t IH]; cbn [dispatch]; [discriminate|].
  destruct (FindStringSubmatch re payload); auto.
  destruct (fn ti l); discriminate.
Qed.

(** X1: whether ParseWithPatterns returns an error, and which one, does
    not depend on the table it is given: the errors come from the prefix
    and its stamp, before any pattern of the table is tried. *)
Theorem errors_do_not_depend_on_the_table (line : bytes) (t1 t2 : table)
    (e : error) :
  ParseWithPatterns line t1 = Fails e <-> ParseWithPatterns line t2 = Fails e.
Proof.
  rewrite !ParseWithPatterns_spec.
  destruct (first_prefix line) as [[ts rest]|]; [|tauto].
  destruct (calendar ts) as [ti|]; [|tauto].
  split; intros H; exfalso; exact (dispatch_never_fails _ _ _ H).
Qed.

Lemma dispatch_skip ti payload (before after : table) :
  Forall (fun en => MatchString (fst en) payload = false) before ->
  dispatch ti payload (before ++ after) = dispatch ti payload after.
Proof.
  induction 1 as [|[re fn] before H _ IH]; [reflexivity|].
  cbn [app dispatch]. unfold MatchString in H. cbn [fst] in H.
  destruct (FindStringSubmatch re payload); [discriminate|exact IH].
Qed.

Lemma dispatch_stop ti payload re fn (after : table) :
  MatchString re payload = true ->
  dispatch ti payload ((re, fn) :: after) = dispatch ti payload [(re, fn)].
Proof.
  unfold MatchString. cbn [dispatch].
  destruct (FindStringSubmatch re payload); [reflexivity|discriminate].
Qed.

(** X2: ParseWithPatterns stops at the first entry, in the order of its
    loop, whose pattern matches the payload (the text after the first
    prefix, up to the end of the line): the entries before it, which do
    not match, and the entries after it, whether they match or not, have
    no part in the outcome. *)
Theorem first_matching_entry_decides
    (line ts rest : bytes) (before after : table) (en : regex * MessageFunc) :
  first_prefix line = Some (ts, rest) ->
  Forall (fun en' => MatchString (fst en') (first_line rest) = false) before ->
  MatchString (fst en) (first_line rest) = true ->
  ParseWithPatterns line (before ++ en :: after) = ParseWithPatterns line [en].
Proof.
  intros Hf Hb He. rewrite !ParseWithPatterns_spec, Hf.
  destruct (calendar ts) as [ti|]; [|reflexivity].
  rewrite dispatch_skip by exact Hb. destruct en as [re fn].
  now apply dispatch_stop.
Qed.

(** X3: on any table, a line with a prefix whose stamp denotes a date and
    time and a payload that no pattern of the table matches is returned
    as an Unknown event, with that time, the type tag Unknown and the
    payload as its Raw field.  The empty table is a case of this: it
    turns every well-stamped line into an Unknown event. *)
Theorem unmatched_line_is_unknown
    (line ts rest : bytes) (ti : time.Time) (t : table) :
  first_prefix line = Some (ts, rest) ->
  calendar ts = Some ti ->
  Forall (fun en => MatchString (fst en) (first_line rest) = false) t ->
  ParseWithPatterns line t =
    Returns (Unknown (NewMeta ti "Unknown") (first_line rest)).
Proof.
  intros Hf Hc Ht. rewrite !ParseWithPatterns_spec, Hf, Hc.
  rewrite <- (app_nil_r t). now rewrite dispatch_skip by exact Ht.
Qed.

(** ** Text after a newline *)

Lemma digit_dot c : digit c = true -> dot c = true.
Proof.
  intros H. unfold dot. destruct (Ascii.eqb c nl) eqn:E; [|reflexivity].
  apply Ascii.eqb_eq in E. subst c. discriminate H.
Qed.

(** The prefix holds no newline. *)
Lemma prefix_without_newline ts :
  stamp_shape ts = true -> ~ In nl ("L " +++ ts +++ ": ").
Proof.
  intros H.
  do 21 (destruct ts as [|? ts]; [discriminate|]).
  destruct ts; [|discriminate].
  cbn [stamp_shape] in H.
  repeat match goal with
         | E : (_ && _) = true |- _ => apply andb_true_iff in E; destruct E
         end.
  repeat match goal with
         | E : Ascii.eqb _ _ = true |- _ => apply Ascii.eqb_eq in E; subst
         | E : digit _ = true |- _ => apply digit_dot in E
         end.
  apply not_in_newline. cbn [of_string list_ascii_of_string app forallb].
  repeat match goal with E : dot _ = true |- _ => rewrite E; clear E end.
  reflexivity.
Qed.

Lemma prefix_here_app s ts rest x :
  prefix_here s = Some (ts, rest) ->
  prefix_here (s ++ x) = Some (ts, rest ++ x).
Proof.
  intros H. apply prefix_here_Some in H. destruct H as [-> Hs].
  apply prefix_here_Some. split; [|exact Hs].
  now rewrite <- !app_assoc.
Qed.

Lemma prefix_here_newline s junk :
  prefix_here s = None -> prefix_here (s ++ nl :: junk) = None.
Proof.
  intros H.
  destruct (prefix_here (s ++ nl :: junk)) as [[ts rest]|] eqn:E;
    [|reflexivity].
  exfalso. apply prefix_here_Some in E. destruct E as [E Hs].
  pose proof (prefix_without_newline _ Hs) as Hn.
  assert (A : forall l, "L " +++ ts +++ ": " +++ l
                        = ("L " +++ ts +++ ": ") ++ l)
    by (intros l; rewrite <- !app_assoc; reflexivity).
  rewrite A in E.
  apply app_eq_app in E. destruct E as (l & [[E1 E2]|[E1 E2]]).
  - assert (P : prefix_here s = Some (ts, l))
      by (apply prefix_here_Some; split; [now rewrite A|exact Hs]).
    congruence.
  - destruct l as [|y l].
    + assert (P : prefix_here s = Some (ts, [])).
      { apply prefix_here_Some. split; [|exact Hs].
        rewrite A, E1, !app_nil_r. reflexivity. }
      congruence.
    + inversion E2; subst y. apply Hn. rewrite E1.
      apply in_or_app. right. now left.
Qed.

Lemma first_prefix_newline line ts rest junk :
  first_prefix line = Some (ts, rest) ->
  first_prefix (line ++ nl :: junk) = Some (ts, rest ++ nl :: junk).
Proof.
  induction line as [|x line IH]; [discriminate|].
  cbn [first_prefix app].
  destruct (prefix_here (x :: line)) as [found|] eqn:E.
  - intros H. inversion H; subst found.
    change (x :: line ++ nl :: junk) with ((x :: line) ++ nl :: junk).
    now rewrite (@prefix_here_app _ _ _ (nl :: junk) E).
  - intros H.
    change (x :: line ++ nl :: junk) with ((x :: line) ++ nl :: junk).
    rewrite (@prefix_here_newline _ junk E). auto.
Qed.

Lemma first_line_newline s junk :
  first_line (s ++ nl :: junk) = first_line s.
Proof.
  unfold first_line. induction s as [|x s IH]; [reflexivity|].
  cbn [app take_while]. now rewrite IH.
Qed.

(** X4: when the prefix occurs before the first newline of the text,
    everything from that newline on is ignored, whatever the table is:
    the outcome is that of the text cut before the newline. *)
Theorem text_after_newline_is_ignored
    (line junk : bytes) (t : table) :
  first_prefix line <> None ->
  ParseWithPatterns (line ++ nl :: junk) t = ParseWithPatterns line t.
Proof.
  intros H. rewrite !ParseWithPatterns_spec.
  destruct (first_prefix line) as [[ts rest]|] eqn:E; [|contradiction].
  rewrite (@first_prefix_newline _ _ _ junk E), first_line_newline. reflexivity.
Qed.

(** ** Type tags and times of the messages *)

Ltac open_extractor :=
  autounfold with extractors; unfold bind;
  repeat match goal with
         | |- context [match nth_error ?l ?i with _ => _ end] =>
             destruct (nth_error l i)
         | |- context [match strconv.Atoi ?v with _ => _ end] =>
             destruct (strconv.Atoi v)
         | |- context [match Unmarshal ?v with _ => _ end] =>
             destruct (Unmarshal v)
         end.

Lemma DefaultPatterns_tagged {lib : Library} : Forall tagged DefaultPatterns.
Proof.
  unfold DefaultPatterns.
  repeat (apply Forall_cons; [|]); [..|apply Forall_nil];
    intros ti r m; cbn [snd]; open_extractor;
    intros H; try discriminate H; inversion H; split; reflexivity.
Qed.

Lemma dispatch_tagged ti payload (order : table) m :
  Forall tagged order ->
  dispatch ti payload order = Returns m ->
  GetType m = struct_name m /\ GetTime m = ti.
Proof.
  induction 1 as [|[re fn] order Ht _ IH]; cbn [dispatch].
  - intros H. inversion H. split; reflexivity.
  - destruct (FindStringSubmatch re payload) as [r|]; auto.
    destruct (fn ti r) as [m'|] eqn:E; [|discriminate].
    intros H. inversion H; subst m'. exact (Ht ti r m E).
Qed.

Lemma digit_val_range c : digit c = true -> (0 <= digit_val c <= 9)%Z.
Proof.
  unfold digit, between, digit_val. rewrite andb_true_iff, !Nat.leb_le. lia.
Qed.

Lemma daysIn_range month year : (28 <= time.daysIn month year <= 31)%Z.
Proof.
  unfold time.daysIn.
  repeat match goal with
         | |- context [if ?b then _ else _] => destruct b
         end; lia.
Qed.

Lemma calendar_on_calendar ts t :
  stamp_shape ts = true -> calendar ts = Some t -> on_calendar t.
Proof.
  intros H.
  do 21 (destruct ts as [|? ts]; [discriminate|]).
  destruct ts; [|discriminate].
  cbn [stamp_shape] in H.
  repeat match goal with
         | E : (_ && _) = true |- _ => apply andb_true_iff in E; destruct E
         end.
  repeat match goal with
         | E : digit _ = true |- _ => apply digit_val_range in E
         end.
  cbn [calendar]. unfold num2, num4.
  match goal with |- context [if ?b then _ else _] => destruct b eqn:B end;
    [|discriminate].
  intros E. inversion E; subst t. clear E.
  repeat match goal with
         | E : (_ && _) = true |- _ => apply andb_true_iff in E; destruct E
         end.
  repeat match goal with
         | E : (_ <=? _)%Z = true |- _ => apply Z.leb_le in E
         | E : (_ <? _)%Z = true |- _ => apply Z.ltb_lt in E
         end.
  unfold on_calendar. cbn [time.Year time.Month time.Day time.Hour
                           time.Minute time.Second].
  match goal with
  | |- context [time.daysIn ?a ?b] => pose proof (daysIn_range a b)
  end.
  repeat split; lia.
Qed.

Section Tags.

Context {lib : Library}.

(** X5: the type tag of every message that Parse returns is the name of
    the struct type of the message. *)
Theorem type_tag_is_struct_name (line : bytes) (m : Message) :
  Parse line (Returns m) -> GetType m = struct_name m.
Proof.
  intros (order & P & E). rewrite ParseWithPatterns_spec in E.
  destruct (first_prefix line) as [[ts rest]|]; [|discriminate].
  destruct (calendar ts) as [ti|]; [|discriminate].
  apply dispatch_tagged in E; [tauto|].
  eapply Permutation_Forall; [exact P|apply DefaultPatterns_tagged].
Qed.

(** X6: the time of every message that Parse returns is a date of the
    calendar and a time of the day: a year from 0 to 9999, a month from 1
    to 12, a day that this month has in this year, an hour below 24, a
    minute and a second below 60. *)
Theorem event_time_is_on_the_calendar (line : bytes) (m : Message) :
  Parse line (Returns m) -> on_calendar (GetTime m).
Proof.
  intros (order & P & E). rewrite ParseWithPatterns_spec in E.
  destruct (first_prefix line) as [[ts rest]|] eqn:F; [|discriminate].
  destruct (calendar ts) as [ti|] eqn:C; [|discriminate].
  apply dispatch_tagged in E;
    [|eapply Permutation_Forall; [exact P|apply DefaultPatterns_tagged]].
  destruct E as [_ ->].
  exact (calendar_on_calendar _ (first_prefix_stamp _ F) C).
Qed.

End Tags.

(** ** The players of the messages *)

Lemma digit_not_sign c :
  digit c = true -> Ascii.eqb c "-" = false /\ Ascii.eqb c "+" = false.
Proof.
  intros H. split.
  - destruct (Ascii.eqb c "-") eqn:E; [|reflexivity].
    apply Ascii.eqb_eq in E. subst c. discriminate H.
  - destruct (Ascii.eqb c "+") eqn:E; [|reflexivity].
    apply Ascii.eqb_eq in E. subst c. discriminate H.
Qed.

Lemma decimal_digits ds : forall acc,
  Forall (fun c => digit c = true) ds -> (0 <= acc)%Z ->
  exists v, strconv.decimal ds acc = Some v /\ (0 <= v)%Z.
Proof.
  induction ds as [|c ds IH]; intros acc H Hacc; cbn [strconv.decimal].
  - now exists acc.
  - inversion H as [|? ? Hc Hds]; subst. rewrite Hc.
    apply IH; [exact Hds|]. pose proof (digit_val_range _ Hc). lia.
Qed.

Lemma maxInt_nonneg : (0 <= maxInt)%Z.
Proof. vm_compute. discriminate. Qed.

(** A run of digits converts to a number that is not negative (zero when
    it does not fit an int). *)
Lemma toInt_digits ds :
  ds <> [] -> Forall (fun c => digit c = true) ds ->
  (0 <= toInt ds <= maxInt)%Z.
Proof.
  intros Hne H. destruct ds as [|c ds]; [contradiction|].
  pose proof maxInt_nonneg as Hmax.
  unfold toInt, strconv.Atoi, strconv.sign.
  inversion H as [|? ? Hc Hds]; subst.
  destruct (digit_not_sign _ Hc) as [-> ->].
  destruct (@decimal_digits (c :: ds) 0%Z H (Z.le_refl 0)) as (v & -> & Hv).
  destruct ((minInt <=? v)%Z && (v <=? maxInt)%Z) eqn:B; [|lia].
  apply andb_true_iff in B. destruct B as [_ B]. apply Z.leb_le in B. lia.
Qed.

Lemma matches_who_full n w c c' :
  matches (who n) w c c' ->
  exists name id steam,
    c' = set_cap (n + 2) steam (set_cap (n + 1) id (set_cap n name c)) /\
    name <> [] /\ id <> [] /\ Forall (fun x => digit x = true) id /\
    steam <> [].
Proof.
  unfold who, Plus. cbn [seq]. intros M. inv_matches.
  eexists _, _, _. split; [reflexivity|].
  repeat split; try discriminate. constructor; assumption.
Qed.

Lemma matches_player_full n w c c' :
  matches (player n) w c c' ->
  exists name id steam side,
    c' = set_cap (n + 3) side
           (set_cap (n + 2) steam (set_cap (n + 1) id (set_cap n name c))) /\
    name <> [] /\ id <> [] /\ Forall (fun x => digit x = true) id /\
    steam <> [] /\
    (side = "TERRORIST" \/ side = "CT").
Proof.
  unfold player, oneof. cbn [seq alts map]. intros M. inv_matches;
    match goal with
    | H : matches (who _) _ _ _ |- _ =>
        apply matches_who_full in H;
        destruct H as (name & id & steam & -> & ? & ? & ? & ?)
    end;
    (exists name, id, steam; eexists; split; [reflexivity|]; auto 8).
Qed.

Create HintDb patterns.

#[local] Hint Unfold
  ServerMessagePattern FreezTimeStartPattern WorldMatchStartPattern
  WorldRoundStartPattern WorldRoundRestartPattern WorldRoundEndPattern
  WorldGameCommencingPattern TeamScoredPattern TeamNoticePattern
  PlayerConnectedPattern PlayerDisconnectedPattern PlayerEnteredPattern
  PlayerBannedPattern PlayerSwitchedPattern PlayerSayPattern
  PlayerPurchasePattern PlayerKillPattern PlayerKillAssistPattern
  PlayerAttackPattern PlayerKilledBombPattern PlayerKilledSuicidePattern
  PlayerPickedUpPattern PlayerDroppedPattern PlayerMoneyChangePattern
  PlayerBombGotPattern PlayerBombPlantedPattern PlayerBombDroppedPattern
  PlayerBombBeginDefusePattern PlayerBombDefusedPattern PlayerThrewPattern
  PlayerBlindedPattern ProjectileSpawnedPattern GameOverPattern
  ServerCvarPattern Get5EventPattern RconEventPattern PlayerKillOtherPattern
  : patterns.

Ltac read_match_full :=
  repeat first
    [ progress inv_matches
    | match goal with
      | H : matches (player _) _ _ _ |- _ =>
          apply matches_player_full in H;
          destruct H as (? & ? & ? & ? & -> & ? & ? & ? & ? & ?)
      | H : matches (who _) _ _ _ |- _ =>
          apply matches_who_full in H;
          destruct H as (? & ? & ? & -> & ? & ? & ? & ?)
      | H : matches (position _) _ _ _ |- _ =>
          apply matches_position in H; destruct H as (? & ? & ? & ->)
      | H : matches (Plus _) _ _ _ |- _ => apply matches_Plus in H; subst
      end ].

Ltac good_player_tac :=
  unfold good_player; cbn [Name ID SteamID Side];
  repeat split;
  try assumption;
  try (apply toInt_digits; assumption);
  try (repeat match goal with
              | H : _ \/ _ |- _ => destruct H
              end; subst; cbn; tauto).

Ltac players_by_reading F E :=
  apply FindStringSubmatch_sound in F;
  destruct F as (? & ? & ? & ? & _ & F & ->);
  cbn [fst] in F; autounfold with patterns in F; unfold oneof, sint in F;
  cbn [seq alts map] in F;
  read_match_full;
  cbn [snd] in E; autounfold with extractors in E;
  cbn -[toInt toFloat32 strings.Contains bytes_eqb] in E;
  inversion E; subst; cbn [players_of];
  repeat (apply Forall_cons; [good_player_tac|]); apply Forall_nil.

Ltac players_none E :=
  solve [ revert E; cbn [snd]; open_extractor; intros E;
          try discriminate E; inversion E; apply Forall_nil ].

Lemma DefaultPatterns_players_ok {lib : Library} :
  Forall players_ok DefaultPatterns.
Proof.
  unfold DefaultPatterns.
  repeat (apply Forall_cons; [|]); [..|apply Forall_nil];
    intros ti payload r m F E;
    first [ players_none E | players_by_reading F E ].
Qed.

Lemma dispatch_players ti payload (order : table) m :
  Forall players_ok order ->
  dispatch ti payload order = Returns m ->
  Forall good_player (players_of m).
Proof.
  induction 1 as [|[re fn] order Hp _ IH]; cbn [dispatch].
  - intros H. inversion H. apply Forall_nil.
  - destruct (FindStringSubmatch re payload) as [r|] eqn:F; auto.
    destruct (fn ti r) as [m'|] eqn:E; [|discriminate].
    intros H. inversion H; subst m'. exact (Hp ti payload r m F E).
Qed.

(** X7: every player in a message that Parse returns has a name and a
    Steam id that are not empty, an id between 0 and the largest int (0
    when the digits of the id overflow), and a side that is TERRORIST,
    CT, Unassigned or empty. *)
Theorem players_are_well_formed {lib : Library} (line : bytes) (m : Message) :
  Parse line (Returns m) -> Forall good_player (players_of m).
Proof.
  intros (order & P & E). rewrite ParseWithPatterns_spec in E.
  destruct (first_prefix line) as [[ts rest]|]; [|discriminate].
  destruct (calendar ts) as [ti|]; [|discriminate].
  apply dispatch_players in E; [exact E|].
  eapply Permutation_Forall; [exact P|apply DefaultPatterns_players_ok].
Qed.

(** ** Messages and the texts they are read from *)

Ltac flatten :=
  cbn [of_string list_ascii_of_string dq quoted app];
  repeat (rewrite <- app_assoc; cbn [app]).

(** X8: the text that the say pattern matches can be rebuilt from the
    PlayerSay event: it is the quoted player (name, the digits of the id,
    Steam id and side in angle brackets), the word say, followed by _team
    exactly when Team is true, and the quoted Text. *)
Theorem say_text_is_rebuilt_from_the_event
    (ti : time.Time) (payload : bytes) (r : list bytes) :
  FindStringSubmatch PlayerSayPattern payload = Some r ->
  exists whole id p text team,
    NewPlayerSay ti r = Some (PlayerSay (NewMeta ti "PlayerSay") p text team) /\
    r.[0] = Some whole /\
    ID p = toInt id /\
    whole = dq ++ Name p ++ "<" +++ id ++ "><" +++ SteamID p ++ "><" +++
            Side p ++ ">" +++ dq ++ " say" +++
            (if team then of_string "_team" else []) ++ " " +++ dq ++
            text ++ dq.
Proof.
  intros H. apply FindStringSubmatch_sound in H.
  destruct H as (before & w & after & c' & _ & M & ->).
  unfold PlayerSayPattern in M. cbn [seq] in M.
  read_match;
    (eexists _, _, _, _, _;
     split; [reflexivity|]; split; [reflexivity|]; split; [reflexivity|];
     cbn [Name SteamID Side bytes_eqb Ascii.eqb Bool.eqb andb];
     flatten; reflexivity).
Qed.

(** X9: for every payload that the money-change pattern matches, the
    extractor builds a PlayerMoneyChange event whose first operand and
    result are not negative.  Either its Purchase is empty and the
    matched text ends with the result and the word tracked in
    parentheses, or its Purchase is not empty and the matched text ends
    with it, in parentheses after the word purchase. *)
Theorem money_change_purchase
    (ti : time.Time) (payload : bytes) (r : list bytes) :
  FindStringSubmatch PlayerMoneyChangePattern payload = Some r ->
  exists whole p a b c purchase,
    NewPlayerMoneyChange ti r =
      Some (PlayerMoneyChange (NewMeta ti "PlayerMoneyChange") p
              (mkEquation (toInt a) (toInt b) (toInt c)) purchase) /\
    r.[0] = Some whole /\
    (0 <= toInt a <= maxInt)%Z /\ (0 <= toInt c <= maxInt)%Z /\
    ((purchase = [] /\
      HasSuffix whole (" = $" +++ c +++ " (tracked)")) \/
     (purchase <> [] /\
      HasSuffix whole
        (" = $" +++ c +++ " (tracked) (purchase: " +++ purchase +++ ")"))).
Proof.
  intros H. apply FindStringSubmatch_sound in H.
  destruct H as (before & w & after & c' & _ & M & ->).
  unfold PlayerMoneyChangePattern, sint, Plus in M. cbn [seq] in M.
  read_match;
    (eexists _, _, _, _, _, _;
     split; [reflexivity|]; split; [reflexivity|];
     split; [apply toInt_digits; [discriminate|constructor; assumption]|];
     split; [apply toInt_digits; [discriminate|constructor; assumption]|];
     first [ left; split; [reflexivity|cbn; ends_with]
           | right; split; [discriminate|cbn; ends_with] ]).
Qed.

(** X10: for every payload that the threw pattern matches, the extractor
    builds a PlayerThrew event whose Grenade is group 5 and whose
    Entindex is not negative; the Entindex is zero when the matched text
    has no flashbang entindex part (group 9 is empty), and otherwise it is
    read from the digits that follow the words flashbang entindex. *)
Theorem threw_entindex
    (ti : time.Time) (payload : bytes) (r : list bytes) :
  FindStringSubmatch PlayerThrewPattern payload = Some r ->
  exists p pos entindex grenade idx,
    NewPlayerThrew ti r =
      Some (PlayerThrew (NewMeta ti "PlayerThrew") p pos entindex grenade) /\
    r.[5] = Some grenade /\ r.[10] = Some idx /\
    entindex = toInt idx /\ (0 <= entindex <= maxInt)%Z /\
    ((r.[9] = Some [] /\ idx = [] /\ entindex = 0%Z) \/
     (r.[9] = Some (" flashbang entindex " +++ idx) /\ idx <> [] /\
      Forall (fun x => digit x = true) idx)).
Proof.
  intros H. apply FindStringSubmatch_sound in H.
  destruct H as (before & w & after & c' & _ & M & ->).
  unfold PlayerThrewPattern, Plus in M. cbn [seq] in M.
  read_match;
    (eexists _, _, _, _, _;
     split; [reflexivity|]; split; [reflexivity|]; split; [reflexivity|];
     split; [reflexivity|]).
  all: lazymatch goal with
       | |- (0 <= toInt [] <= _)%Z /\ _ =>
           split; [change (toInt []) with 0%Z;
                   pose proof maxInt_nonneg; lia|];
           left; repeat split; reflexivity
       | |- _ =>
           split; [apply toInt_digits; [discriminate|constructor; assumption]|];
           right; split; [reflexivity|];
           split; [discriminate|constructor; assumption]
       end.
Qed.

Lemma Atoi_digits ds :
  ds <> [] -> Forall (fun c => digit c = true) ds ->
  (exists p, strconv.Atoi ds = inl p /\ (0 <= p <= maxInt)%Z) \/
  strconv.Atoi ds = inr strconv.ErrRange.
Proof.
  intros Hne H. destruct ds as [|c ds]; [contradiction|].
  unfold strconv.Atoi, strconv.sign.
  inversion H as [|? ? Hc Hds]; subst.
  destruct (digit_not_sign _ Hc) as [-> ->].
  destruct (@decimal_digits (c :: ds) 0%Z H (Z.le_refl 0)) as (v & -> & Hv).
  destruct ((minInt <=? v)%Z && (v <=? maxInt)%Z) eqn:B; [|now right].
  apply andb_true_iff in B. destruct B as [_ B]. apply Z.leb_le in B.
  left. exists v. split; [reflexivity|lia].
Qed.

Lemma uint_small p : (0 <= p <= maxInt)%Z -> uint p = p.
Proof.
  intros H. unfold uint. apply Z.mod_small.
  assert (maxInt < 2 ^ intSize)%Z by (vm_compute; reflexivity). lia.
Qed.

(** X11: for every payload that the rcon pattern matches, the port is a
    text of one digit or more, so that strconv.Atoi can reject it for its
    range only.  When it accepts, the number is not negative, its
    conversion to uint keeps its value, and the extractor builds an Rcon
    event with the address, this port and the command; when it rejects,
    the extractor builds an Unknown event whose Raw field is the
    address. *)
Theorem rcon_port
    (ti : time.Time) (payload : bytes) (r : list bytes) :
  FindStringSubmatch RconEventPattern payload = Some r ->
  exists ip port command,
    r.[1] = Some ip /\ r.[2] = Some port /\ r.[3] = Some command /\
    r.[0] = Some ("rcon from " +++ dq +++ ip +++ ":" +++ port +++ dq +++
                  ": command " +++ dq +++ command +++ dq) /\
    port <> [] /\ Forall (fun x => digit x = true) port /\
    ((exists p,
         strconv.Atoi port = inl p /\ (0 <= p <= maxInt)%Z /\
         NewRconEvent ti r = Some (Rcon (NewMeta ti "Rcon") ip p command)) \/
     (strconv.Atoi port = inr strconv.ErrRange /\
      NewRconEvent ti r = Some (Unknown (NewMeta ti "Unknown") ip))).
Proof.
  intros H. apply FindStringSubmatch_sound in H.
  destruct H as (before & w & after & c' & _ & M & ->).
  unfold RconEventPattern, Plus in M. cbn [seq] in M.
  read_match.
  eexists _, _, _.
  split; [reflexivity|]. split; [reflexivity|]. split; [reflexivity|].
  split; [cbn; flatten; reflexivity|].
  split; [discriminate|]. split; [constructor; assumption|].
  match goal with
  | |- (exists p, strconv.Atoi ?ds = _ /\ _) \/ _ =>
      destruct (@Atoi_digits ds) as [(p & E & Hp)|E];
        [discriminate|constructor; assumption| |]
  end.
  - left. exists p. split; [exact E|]. split; [exact Hp|].
    unfold NewRconEvent. cbn -[strconv.Atoi uint Ascii.eqb digit].
    cbn [app] in E. rewrite E. now rewrite (uint_small Hp).
  - right. split; [exact E|].
    unfold NewRconEvent. cbn -[strconv.Atoi uint Ascii.eqb digit].
    cbn [app] in E. now rewrite E.
Qed.

(** X12: for every payload that the get5 pattern matches, the event name
    (group 4) is one of the 22 names of the pattern and the match id
    (group 2) is made of word characters.  The extractor builds a
    Get5Event with them when the params (group 3) decode, and otherwise an
    Unknown event whose Raw field is group 1, the text between the word
    matchid and the quote that follows it. *)
Theorem get5_event_names_only {lib : Library}
    (ti : time.Time) (payload : bytes) (r : list bytes) :
  FindStringSubmatch Get5EventPattern payload = Some r ->
  exists whole ignored matchid params event,
    r = [whole; ignored; matchid; params; event] /\
    In event (map of_string get5_event_names) /\
    Forall (fun x => word x = true) matchid /\
    NewGet5Event ti r =
      match Unmarshal params with
      | Some decoded =>
          Some (Get5Event (NewMeta ti "Get5Event") matchid decoded event)
      | None => Some (Unknown (NewMeta ti "Unknown") ignored)
      end.
Proof.
  intros H. apply FindStringSubmatch_sound in H.
  destruct H as (before & w & after & c' & _ & M & ->).
  unfold Get5EventPattern, oneof, get5_event_names in M.
  cbn [seq alts map] in M.
  read_match;
    (eexists _, _, _, _, _; split; [reflexivity|];
     split; [cbn; tauto|]; split; [assumption|];
     unfold NewGet5Event, NewUnknown; cbn -[Unmarshal NewMeta];
     match goal with
     | |- context [Unmarshal ?v] => destruct (Unmarshal v)
     end; reflexivity).
Qed.

(** ** Extractors on slices of any length *)

Ltac short_slices r H :=
  repeat (destruct r as [|? r];
          [ solve [ cbn [snd]; autounfold with extractors;
                    cbn [bind nth_error]; reflexivity ]
          | ]);
  exfalso; cbn [length fst] in H; lia.

Ltac long_slices r H :=
  cbn [snd length] in H;
  repeat (destruct r as [|? r]; [exfalso; cbn [length] in H; lia|]);
  cbn [snd]; autounfold with extractors; cbn [bind nth_error];
  repeat match goal with
         | |- context [match strconv.Atoi ?v with _ => _ end] =>
             destruct (strconv.Atoi v)
         | |- context [match Unmarshal ?v with _ => _ end] =>
             destruct (Unmarshal v)
         end;
  autounfold with extractors; cbn [bind nth_error]; discriminate.

(** Every extractor of the table panics on a slice that is too short for
    the captures it reads, returns a message on any other slice, and is
    paired with a pattern that has groups enough. *)
Lemma DefaultPatterns_bounded {lib : Library} :
  Forall2 bounded DefaultPatterns capture_bounds.
Proof.
  unfold DefaultPatterns, capture_bounds.
  repeat (apply Forall2_cons; [|]); [..|apply Forall2_nil];
    (split; [cbn; lia|]); intros ti r;
    (split; intros H; [short_slices r H|long_slices r H]).
Qed.

Lemma Forall2_nth_error (A B : Type) (P : A -> B -> Prop) l l' i a b :
  Forall2 P l l' -> nth_error l i = Some a -> nth_error l' i = Some b ->
  P a b.
Proof.
  intros H. revert i. induction H as [|x y l l' Hxy _ IH]; intros [|i];
    cbn [nth_error]; try discriminate.
  - intros E1 E2. inversion E1; inversion E2; subst. exact Hxy.
  - apply IH.
Qed.

(** X13: an extractor of the default table used in a table of one's own,
    under another pattern [re]: when [re] matches the payload of a line
    whose stamp denotes a date and time, ParseWithPatterns panics (an
    index out of range) if [re] has fewer groups than the extractor
    reads, and returns a message if it has groups enough. *)
Theorem extractor_under_another_pattern {lib : Library}
    (i : nat) (e : regex * MessageFunc) (b : nat * nat)
    (line ts rest : bytes) (ti : time.Time) (re : regex) (after : table) :
  DefaultPatterns.[i] = Some e ->
  capture_bounds.[i] = Some b ->
  first_prefix line = Some (ts, rest) ->
  calendar ts = Some ti ->
  MatchString re (first_line rest) = true ->
  (S (ngroups re) < fst b ->
   ParseWithPatterns line ((re, snd e) :: after) = Panics) /\
  (snd b <= S (ngroups re) ->
   exists m, ParseWithPatterns line ((re, snd e) :: after) = Returns m).
Proof.
  intros He Hb Hf Hc Hm.
  pose proof (Forall2_nth_error _ DefaultPatterns_bounded He Hb)
    as [_ B].
  rewrite ParseWithPatterns_spec, Hf, Hc. cbn [dispatch].
  unfold MatchString in Hm.
  destruct (FindStringSubmatch re (first_line rest)) as [r|] eqn:E;
    [|discriminate].
  apply FindStringSubmatch_length in E. destruct (B ti r) as [Lo Hi].
  split; intros H.
  - rewrite Lo by lia. reflexivity.
  - destruct (snd e ti r) as [m|] eqn:R.
    + now exists m.
    + exfalso. apply Hi; [lia|reflexivity].
Qed.

(** ** The properties above on sample lines *)

Lemma first_matching_entry_decides_witness :
  first_prefix quoting_line
    = Some (of_string "10/15/2022 - 18:30:30", quoting_payload) /\
  Forall (fun en => MatchString (fst en) (first_line quoting_payload) = false)
    [round_start_entry] /\
  MatchString (fst freeze_entry) (first_line quoting_payload) = true /\
  ParseWithPatterns quoting_line
    ([round_start_entry] ++ freeze_entry :: [say_entry])
  = ParseWithPatterns quoting_line [freeze_entry].
Proof.
  assert (H1 : first_prefix quoting_line
               = Some (of_string "10/15/2022 - 18:30:30", quoting_payload))
    by (vm_compute; reflexivity).
  assert (H2 : Forall (fun en => MatchString (fst en)
                                   (first_line quoting_payload) = false)
                 [round_start_entry])
    by (repeat constructor; vm_compute; reflexivity).
  assert (H3 : MatchString (fst freeze_entry) (first_line quoting_payload)
               = true) by (vm_compute; reflexivity).
  repeat (split; [assumption|]).
  exact (@first_matching_entry_decides quoting_line _ _ [round_start_entry]
           [say_entry] freeze_entry H1 H2 H3).
Defined.

Lemma unmatched_line_is_unknown_witness :
  first_prefix ("L " +++ unknown_stamp +++ ": " +++ unknown_payload)
    = Some (unknown_stamp, unknown_payload) /\
  calendar unknown_stamp = Some unknown_time /\
  Forall (fun en => MatchString (fst en) (first_line unknown_payload) = false)
    [freeze_entry; say_entry] /\
  ParseWithPatterns ("L " +++ unknown_stamp +++ ": " +++ unknown_payload)
    [freeze_entry; say_entry]
  = Returns (Unknown (NewMeta unknown_time "Unknown")
               (first_line unknown_payload)).
Proof.
  assert (H1 : first_prefix ("L " +++ unknown_stamp +++ ": " +++
                             unknown_payload)
               = Some (unknown_stamp, unknown_payload))
    by (vm_compute; reflexivity).
  assert (H2 : calendar unknown_stamp = Some unknown_time) by reflexivity.
  assert (H3 : Forall (fun en => MatchString (fst en)
                                   (first_line unknown_payload) = false)
                 [freeze_entry; say_entry])
    by (repeat constructor; vm_compute; reflexivity).
  repeat (split; [assumption|]).
  exact (@unmatched_line_is_unknown _ _ _ _ [freeze_entry; say_entry]
           H1 H2 H3).
Defined.

Lemma text_after_newline_is_ignored_witness :
  first_prefix quoting_line <> None /\
  ParseWithPatterns (quoting_line ++ nl :: kill_line) [say_entry]
  = ParseWithPatterns quoting_line [say_entry].
Proof.
  assert (H : first_prefix quoting_line <> None)
    by (vm_compute; discriminate).
  split; [exact H|].
  exact (@text_after_newline_is_ignored quoting_line kill_line [say_entry] H).
Defined.

Lemma type_tag_is_struct_name_witness :
  Parse (lib := rejecting) quoting_line
    (Returns (FreezTimeStart (NewMeta sample_time "FreezTimeStart"))) /\
  GetType (FreezTimeStart (NewMeta sample_time "FreezTimeStart"))
  = of_string "FreezTimeStart".
Proof.
  assert (H : Parse (lib := rejecting) quoting_line
                (Returns (FreezTimeStart
                            (NewMeta sample_time "FreezTimeStart")))).
  { exists (DefaultPatterns (lib := rejecting)).
    split; [apply Permutation_refl|]. vm_compute. reflexivity. }
  split; [exact H|].
  exact (@type_tag_is_struct_name rejecting quoting_line _ H).
Defined.

Lemma event_time_is_on_the_calendar_witness :
  Parse (lib := rejecting) late_prefix_line
    (Returns (Unknown (NewMeta sample_time "Unknown") "hello")) /\
  on_calendar sample_time.
Proof.
  assert (H : Parse (lib := rejecting) late_prefix_line
                (Returns (Unknown (NewMeta sample_time "Unknown") "hello"))).
  { exists (DefaultPatterns (lib := rejecting)).
    split; [apply Permutation_refl|]. vm_compute. reflexivity. }
  split; [exact H|].
  exact (@event_time_is_on_the_calendar rejecting late_prefix_line _ H).
Defined.

Lemma players_are_well_formed_witness :
  Parse (lib := rejecting) kill_line
    (ParseWithPatterns kill_line DefaultPatterns) /\
  exists m,
    ParseWithPatterns kill_line (DefaultPatterns (lib := rejecting))
      = Returns m /\
    Forall good_player (players_of m).
Proof.
  assert (H : Parse (lib := rejecting) kill_line
                (ParseWithPatterns kill_line DefaultPatterns)).
  { exists (DefaultPatterns (lib := rejecting)).
    split; [apply Permutation_refl|reflexivity]. }
  split; [exact H|].
  destruct (ParseWithPatterns kill_line (DefaultPatterns (lib := rejecting)))
    as [m| |] eqn:E; try (vm_compute in E; discriminate E).
  exists m. split; [reflexivity|].
  exact (@players_are_well_formed rejecting kill_line m H).
Defined.

Lemma say_text_is_rebuilt_from_the_event_witness :
  FindStringSubmatch PlayerSayPattern quoting_payload = Some say_captures /\
  exists p text team,
    NewPlayerSay sample_time say_captures
      = Some (PlayerSay (NewMeta sample_time "PlayerSay") p text team).
Proof.
  assert (H : FindStringSubmatch PlayerSayPattern quoting_payload
              = Some say_captures) by (vm_compute; reflexivity).
  split; [exact H|].
  destruct (@say_text_is_rebuilt_from_the_event sample_time quoting_payload
              say_captures H) as (w & id & p & text & team & E & _).
  now exists p, text, team.
Defined.

Lemma money_change_purchase_witness :
  FindStringSubmatch PlayerMoneyChangePattern money_payload
    = Some money_captures /\
  exists p eq purchase,
    NewPlayerMoneyChange sample_time money_captures
      = Some (PlayerMoneyChange (NewMeta sample_time "PlayerMoneyChange")
                p eq purchase).
Proof.
  assert (H : FindStringSubmatch PlayerMoneyChangePattern money_payload
              = Some money_captures) by (vm_compute; reflexivity).
  split; [exact H|].
  destruct (@money_change_purchase sample_time money_payload money_captures H)
    as (w & p & a & b & c & purchase & E & _).
  now exists p, (mkEquation (toInt a) (toInt b) (toInt c)), purchase.
Defined.

Lemma threw_entindex_witness :
  FindStringSubmatch PlayerThrewPattern threw_payload = Some threw_captures /\
  exists p pos entindex grenade,
    NewPlayerThrew sample_time threw_captures
      = Some (PlayerThrew (NewMeta sample_time "PlayerThrew") p pos entindex
                grenade) /\
    (0 <= entindex <= maxInt)%Z.
Proof.
  assert (H : FindStringSubmatch PlayerThrewPattern threw_payload
              = Some threw_captures) by (vm_compute; reflexivity).
  split; [exact H|].
  destruct (@threw_entindex sample_time threw_payload threw_captures H)
    as (p & pos & n & g & idx & E & _ & _ & _ & R & _).
  now exists p, pos, n, g.
Defined.

Lemma rcon_port_witness :
  FindStringSubmatch RconEventPattern rcon_status_payload
    = Some rcon_status_captures /\
  exists port,
    rcon_status_captures.[2] = Some port /\
    Forall (fun x => digit x = true) port.
Proof.
  assert (H : FindStringSubmatch RconEventPattern rcon_status_payload
              = Some rcon_status_captures) by (vm_compute; reflexivity).
  split; [exact H|].
  destruct (@rcon_port sample_time rcon_status_payload rcon_status_captures H)
    as (ip & port & cmd & _ & E & _ & _ & _ & D & _).
  now exists port.
Defined.

Lemma get5_event_names_only_witness :
  FindStringSubmatch Get5EventPattern get5_payload = Some get5_captures /\
  exists event,
    get5_captures.[4] = Some event /\
    In event (map of_string get5_event_names).
Proof.
  assert (H : FindStringSubmatch Get5EventPattern get5_payload
              = Some get5_captures) by (vm_compute; reflexivity).
  split; [exact H|].
  destruct (@get5_event_names_only rejecting sample_time get5_payload
              get5_captures H)
    as (w & ig & mid & params & event & E & I & _).
  exists event. split; [rewrite E; reflexivity|exact I].
Defined.

Lemma extractor_under_another_pattern_witness :
  (DefaultPatterns (lib := rejecting)).[14] = Some say_entry /\
  capture_bounds.[14] = Some (7, 7) /\
  first_prefix quoting_line
    = Some (of_string "10/15/2022 - 18:30:30", quoting_payload) /\
  calendar "10/15/2022 - 18:30:30" = Some sample_time /\
  MatchString FreezTimeStartPattern (first_line quoting_payload) = true /\
  ParseWithPatterns quoting_line [(FreezTimeStartPattern, NewPlayerSay)]
  = Panics.
Proof.
  assert (H1 : (DefaultPatterns (lib := rejecting)).[14] = Some say_entry)
    by reflexivity.
  assert (H2 : capture_bounds.[14] = Some (7, 7)) by reflexivity.
  assert (H3 : first_prefix quoting_line
               = Some (of_string "10/15/2022 - 18:30:30", quoting_payload))
    by (vm_compute; reflexivity).
  assert (H4 : calendar "10/15/2022 - 18:30:30" = Some sample_time)
    by reflexivity.
  assert (H5 : MatchString FreezTimeStartPattern (first_line quoting_payload)
               = true) by (vm_compute; reflexivity).
  repeat (split; [assumption|]).
  apply (proj1 (@extractor_under_another_pattern rejecting 14 say_entry (7, 7)
                  quoting_line _ _ sample_time FreezTimeStartPattern []
                  H1 H2 H3 H4 H5)).
  cbn. lia.
Defined.
